(** * Prompt trigger questions: versioned CRUD with a history log

    A shallow embedding of [PromptTriggerQuestionRepository]
    (backend-repository-prompt-trigger-questions.py) over the two tables
    declared in backend-models-prompt-trigger-questions.py, and the
    properties of its version / history bookkeeping.

    Modelling choices.
    - A table is the list of its rows in insertion order.  The schema's
      constraints (primary keys, the foreign key from a history row to its
      question) are the store invariant [wf_store], proved to hold of the
      empty store and to be preserved by every repository method.
    - The ORM identity map is modelled by primary key: committing a modified
      object is [UPDATE ... WHERE id = pk], adding a new object is an
      [INSERT] that draws the next auto-increment key.
    - [dt.datetime.utcnow()] reads an oracle [utcnow_at : nat -> datetime]
      at the number of readings taken so far, which the session counts.
    - The collation used by [ORDER BY group_name] belongs to the database
      and is a parameter, [collate].
    - Integers are Python's: [Z], without a bound. *)

From stdpp Require Import gmap strings list fin_maps sorting pretty.

Open Scope Z_scope.

(** ** Data model (backend-models-prompt-trigger-questions.py) *)

(** A [DateTime] column: an abstract point in time. *)
Definition datetime : Type := Z.

Module PromptTriggerQuestion.
Record t : Type := mk {
  id : Z;
  question_text : string;
  group_name : string;
  source_shorthand : string;
  version : Z;
  is_active : bool;
  created_at : datetime;
  created_by : option string;
  updated_at : datetime;
  updated_by : option string
}.
End PromptTriggerQuestion.

Module PromptTriggerQuestionHistory.
Record t : Type := mk {
  id : Z;
  question_id : Z;
  question_text : string;
  group_name : string;
  source_shorthand : string;
  version : Z;
  created_at : datetime;
  created_by : option string;
  replaced_at : datetime;
  replaced_by : option string;
  reason : option string
}.
End PromptTriggerQuestionHistory.

Module Live := PromptTriggerQuestion.
Module Hist := PromptTriggerQuestionHistory.

Abbreviation Question := PromptTriggerQuestion.t.
Abbreviation HistoryEntry := PromptTriggerQuestionHistory.t.

(** The database behind an [AsyncSession]: both tables, the two
    auto-increment counters and the number of clock readings so far. *)
Record Session : Type := mkSession {
  prompt_trigger_questions : list Question;
  prompt_trigger_questions_history : list HistoryEntry;
  next_question_id : Z;
  next_history_id : Z;
  clock : nat
}.

Definition empty_session : Session :=
  {| prompt_trigger_questions := [];
     prompt_trigger_questions_history := [];
     next_question_id := 1;
     next_history_id := 1;
     clock := 0 |}.

(** ** Python helpers *)

(** Truthiness of an [Optional[str]]: [None] and [""] are falsy. *)
Definition truthy (o : option string) : bool :=
  match o with
  | Some s => negb (bool_decide (s = ""%string))
  | None => false
  end.

(** [o or d] for [o : Optional[str]] and a string [d]. *)
Definition py_or (o : option string) (d : string) : option string :=
  if truthy o then o else Some d.

(** ** The repository monad: a computation over the session *)

Definition Repo (A : Type) : Type := Session → A * Session.

Definition ret {A : Type} (a : A) : Repo A := λ s, (a, s).

Definition bind {A B : Type} (m : Repo A) (k : A → Repo B) : Repo B :=
  λ s, let '(a, s') := m s in k a s'.

Notation "x <- m ;; k" := (bind m (λ x, k))
  (at level 100, m at next level, right associativity,
   format "'[v' x  <-  m  ;; '/' k ']'").
Notation "m ;;; k" := (bind m (λ _, k))
  (at level 100, right associativity).

(** [for x in xs: body x] *)
Fixpoint for_each {A : Type} (xs : list A) (body : A → Repo unit) : Repo unit :=
  match xs with
  | [] => ret tt
  | x :: rest => body x ;;; for_each rest body
  end.

(** *** Storage primitives *)

(** [select(PromptTriggerQuestion).where(P)], rows in table order. *)
Definition select_questions (P : Question → bool) : Repo (list Question) :=
  λ s, (filter (λ q, P q = true) (prompt_trigger_questions s), s).

Definition select_history (P : HistoryEntry → bool) : Repo (list HistoryEntry) :=
  λ s, (filter (λ h, P h = true) (prompt_trigger_questions_history s), s).

(** Flushing a modified question object: [UPDATE ... WHERE id = pk]. *)
Definition update_row (q : Question) (rows : list Question) : list Question :=
  (λ r, if bool_decide (Live.id r = Live.id q) then q else r) <$> rows.

Definition flush_question (q : Question) : Repo unit :=
  λ s, (tt, {| prompt_trigger_questions := update_row q (prompt_trigger_questions s);
               prompt_trigger_questions_history := prompt_trigger_questions_history s;
               next_question_id := next_question_id s;
               next_history_id := next_history_id s;
               clock := clock s |}).

(** Flushing a new question object: [INSERT], the key is drawn from the
    auto-increment counter; the refreshed object is returned. *)
Definition insert_question (new : Z → Question) : Repo Question :=
  λ s, let q := new (next_question_id s) in
       (q, {| prompt_trigger_questions := prompt_trigger_questions s ++ [q];
              prompt_trigger_questions_history := prompt_trigger_questions_history s;
              next_question_id := next_question_id s + 1;
              next_history_id := next_history_id s;
              clock := clock s |}).

Definition insert_history (new : Z → HistoryEntry) : Repo unit :=
  λ s, (tt, {| prompt_trigger_questions := prompt_trigger_questions s;
               prompt_trigger_questions_history :=
                 prompt_trigger_questions_history s ++ [new (next_history_id s)];
               next_question_id := next_question_id s;
               next_history_id := next_history_id s + 1;
               clock := clock s |}).

(** [session.delete(question)]: the row goes, and with it its history
    ([cascade="all, delete-orphan"], [ondelete="CASCADE"]). *)
Definition delete_row (q : Question) : Repo unit :=
  λ s, (tt, {| prompt_trigger_questions :=
                 filter (λ r, Live.id r ≠ Live.id q) (prompt_trigger_questions s);
               prompt_trigger_questions_history :=
                 filter (λ h, Hist.question_id h ≠ Live.id q)
                        (prompt_trigger_questions_history s);
               next_question_id := next_question_id s;
               next_history_id := next_history_id s;
               clock := clock s |}).

(** Field assignments on a question object. *)
Definition set_question_text (v : string) (q : Question) : Question :=
  Live.mk (Live.id q) v (Live.group_name q) (Live.source_shorthand q) (Live.version q)
       (Live.is_active q) (Live.created_at q) (Live.created_by q) (Live.updated_at q)
       (Live.updated_by q).

Definition set_group_name (v : string) (q : Question) : Question :=
  Live.mk (Live.id q) (Live.question_text q) v (Live.source_shorthand q) (Live.version q)
       (Live.is_active q) (Live.created_at q) (Live.created_by q) (Live.updated_at q)
       (Live.updated_by q).

Definition set_source_shorthand (v : string) (q : Question) : Question :=
  Live.mk (Live.id q) (Live.question_text q) (Live.group_name q) v (Live.version q)
       (Live.is_active q) (Live.created_at q) (Live.created_by q) (Live.updated_at q)
       (Live.updated_by q).

Definition set_version (v : Z) (q : Question) : Question :=
  Live.mk (Live.id q) (Live.question_text q) (Live.group_name q) (Live.source_shorthand q) v
       (Live.is_active q) (Live.created_at q) (Live.created_by q) (Live.updated_at q)
       (Live.updated_by q).

Definition set_is_active (v : bool) (q : Question) : Question :=
  Live.mk (Live.id q) (Live.question_text q) (Live.group_name q) (Live.source_shorthand q)
       (Live.version q) v (Live.created_at q) (Live.created_by q) (Live.updated_at q)
       (Live.updated_by q).

Definition set_updated_at (v : datetime) (q : Question) : Question :=
  Live.mk (Live.id q) (Live.question_text q) (Live.group_name q) (Live.source_shorthand q)
       (Live.version q) (Live.is_active q) (Live.created_at q) (Live.created_by q) v
       (Live.updated_by q).

Definition set_updated_by (v : option string) (q : Question) : Question :=
  Live.mk (Live.id q) (Live.question_text q) (Live.group_name q) (Live.source_shorthand q)
       (Live.version q) (Live.is_active q) (Live.created_at q) (Live.created_by q)
       (Live.updated_at q) v.

(** [if v is not None: question.f = v] *)
Definition assign_if_given {A : Type} (set : A → Question → Question)
    (v : option A) (q : Question) : Question :=
  match v with
  | Some x => set x q
  | None => q
  end.

(** The snapshot both tracked paths build from the live question. *)
Definition snapshot (question : Question) (replaced_at : datetime)
    (replaced_by : string) (reason : option string) (pk : Z) : HistoryEntry :=
  {| Hist.id := pk;
     Hist.question_id := Live.id question;
     Hist.question_text := Live.question_text question;
     Hist.group_name := Live.group_name question;
     Hist.source_shorthand := Live.source_shorthand question;
     Hist.version := Live.version question;
     Hist.created_at := Live.created_at question;
     Hist.created_by := Live.created_by question;
     Hist.replaced_at := replaced_at;
     Hist.replaced_by := Some replaced_by;
     Hist.reason := reason |}.

(** The dict returned by [get_question_stats]. *)
Record QuestionStats : Type := mkStats {
  total_questions : Z;
  active_questions : Z;
  inactive_questions : Z;
  total_groups : Z;
  questions_by_source : gmap string Z;
  questions_by_group : gmap string Z
}.

(** [select(key, func.count(id)) ... group_by(key)]: one row per distinct
    key among [rows], with the number of rows that carry it. *)
Definition group_by_count (key : Question → string) (rows : list Question)
    : list (string * Z) :=
  (λ k, (k, Z.of_nat (length (filter (λ q, key q = k) rows))))
    <$> remove_dups (key <$> rows).

(** [{row[0]: row[1] for row in result}]: later rows overwrite earlier ones. *)
Definition dict_of_rows (result : list (string * Z)) : gmap string Z :=
  foldl (λ d row, <[row.1 := row.2]> d) ∅ result.

(** [func.count(id)] *)
Definition count_rows {A : Type} (rows : list A) : Z := Z.of_nat (length rows).

(** ** The repository (backend-repository-prompt-trigger-questions.py) *)

Section PromptTriggerQuestionRepository.

(** The wall clock: the value of the [n]-th call of [dt.datetime.utcnow()]. *)
Variable utcnow_at : nat → datetime.

(** The database's collation of [group_name], used by [ORDER BY]. *)
Variable collate : string → string → comparison.

(** [dt.datetime.utcnow()] *)
Definition utcnow : Repo datetime :=
  λ s, (utcnow_at (clock s),
        {| prompt_trigger_questions := prompt_trigger_questions s;
           prompt_trigger_questions_history := prompt_trigger_questions_history s;
           next_question_id := next_question_id s;
           next_history_id := next_history_id s;
           clock := S (clock s) |}).

(** [order_by(group_name, id)] *)
Definition order_by_group_name_id (q1 q2 : Question) : Prop :=
  match collate (Live.group_name q1) (Live.group_name q2) with
  | Lt => True
  | Eq => Live.id q1 ≤ Live.id q2
  | Gt => False
  end.

#[local] Instance order_by_group_name_id_dec q1 q2 :
  Decision (order_by_group_name_id q1 q2).
Proof. unfold order_by_group_name_id. destruct (collate _ _); apply _. Defined.

(** The conjunction of filters [get_all_questions] builds. *)
Definition question_filter (source_shorthand group_name : option string)
    (include_inactive : bool) (q : Question) : bool :=
  (if negb include_inactive then Live.is_active q else true)
  && (if truthy source_shorthand
      then bool_decide (Some (Live.source_shorthand q) = source_shorthand)
      else true)
  && (if truthy group_name
      then bool_decide (Some (Live.group_name q) = group_name)
      else true).

Definition get_all_questions (source_shorthand group_name : option string)
    (include_inactive : bool) : Repo (list Question) :=
  rows <- select_questions
            (question_filter source_shorthand group_name include_inactive) ;;
  ret (merge_sort order_by_group_name_id rows).

Definition get_question_by_id (question_id : Z) : Repo (option Question) :=
  rows <- select_questions (λ q, bool_decide (Live.id q = question_id)) ;;
  ret (head rows).

Definition create_question (question_text group_name source_shorthand : string)
    (created_by : option string) : Repo Question :=
  created_at <- utcnow ;;
  updated_at <- utcnow ;;
  insert_question (λ pk,
    {| Live.id := pk;
       Live.question_text := question_text;
       Live.group_name := group_name;
       Live.source_shorthand := source_shorthand;
       Live.version := 1;
       Live.is_active := true;
       Live.created_at := created_at;
       Live.created_by := created_by;
       Live.updated_at := updated_at;
       Live.updated_by := created_by |}).

Definition delete_question (question_id : Z) : Repo bool :=
  question <- get_question_by_id question_id ;;
  match question with
  | None => ret false
  | Some question => delete_row question ;;; ret true
  end.

Definition update_question_with_history (question_id : Z) (updated_by : string)
    (question_text group_name source_shorthand reason : option string)
    : Repo (option Question) :=
  question <- get_question_by_id question_id ;;
  match question with
  | None => ret None
  | Some question =>
      replaced_at <- utcnow ;;
      insert_history (snapshot question replaced_at updated_by reason) ;;;
      let question := assign_if_given set_question_text question_text question in
      let question := assign_if_given set_group_name group_name question in
      let question := assign_if_given set_source_shorthand source_shorthand question in
      let question := set_version (Live.version question + 1) question in
      updated_at <- utcnow ;;
      let question := set_updated_at updated_at question in
      let question := set_updated_by (Some updated_by) question in
      flush_question question ;;;
      ret (Some question)
  end.

Definition toggle_active_status (question_id : Z) (is_active : bool)
    (updated_by : string) (reason : option string) : Repo (option Question) :=
  question <- get_question_by_id question_id ;;
  match question with
  | None => ret None
  | Some question =>
      if bool_decide (Live.is_active question = is_active) then ret (Some question)
      else
        replaced_at <- utcnow ;;
        insert_history
          (snapshot question replaced_at updated_by
             (py_or reason
                ((if is_active then "Activated" else "Deactivated") +:+ " question"))) ;;;
        let question := set_is_active is_active question in
        let question := set_version (Live.version question + 1) question in
        updated_at <- utcnow ;;
        let question := set_updated_at updated_at question in
        let question := set_updated_by (Some updated_by) question in
        flush_question question ;;;
        ret (Some question)
  end.

(** [order_by(version.desc())] *)
Definition order_by_version_desc (h1 h2 : HistoryEntry) : Prop :=
  Hist.version h2 ≤ Hist.version h1.

#[local] Instance order_by_version_desc_dec h1 h2 :
  Decision (order_by_version_desc h1 h2).
Proof. unfold order_by_version_desc. apply _. Defined.

Definition get_question_history (question_id : Z) : Repo (list HistoryEntry) :=
  rows <- select_history (λ h, bool_decide (Hist.question_id h = question_id)) ;;
  ret (merge_sort order_by_version_desc rows).

Definition get_history_entry (history_id : Z) : Repo (option HistoryEntry) :=
  rows <- select_history (λ h, bool_decide (Hist.id h = history_id)) ;;
  ret (head rows).

Definition restore_question_version (question_id history_id : Z)
    (restored_by : string) (reason : option string) : Repo (option Question) :=
  history_entry <- get_history_entry history_id ;;
  match history_entry with
  | None => ret None
  | Some history_entry =>
      if bool_decide (Hist.question_id history_entry ≠ question_id) then ret None
      else
        let restore_reason :=
          py_or reason ("Restored to version " +:+ pretty (Hist.version history_entry)) in
        update_question_with_history question_id restored_by
          (Some (Hist.question_text history_entry))
          (Some (Hist.group_name history_entry))
          (Some (Hist.source_shorthand history_entry))
          restore_reason
  end.

(** [order_by(group_name)] on the rows of a grouped count. *)
Definition order_by_group_name (row1 row2 : string * Z) : Prop :=
  collate row1.1 row2.1 ≠ Gt.

#[local] Instance order_by_group_name_dec row1 row2 :
  Decision (order_by_group_name row1 row2).
Proof. unfold order_by_group_name. apply _. Defined.

Definition get_all_groups (source_shorthand : option string)
    (include_inactive : bool) : Repo (list (string * Z)) :=
  rows <- select_questions
            (question_filter source_shorthand None include_inactive) ;;
  ret (merge_sort order_by_group_name (group_by_count Live.group_name rows)).

Definition rename_group (old_name new_name updated_by : string) : Repo Z :=
  questions <- get_all_questions None (Some old_name) true ;;
  for_each questions (λ question,
    let question := set_group_name new_name question in
    updated_at <- utcnow ;;
    let question := set_updated_at updated_at question in
    let question := set_updated_by (Some updated_by) question in
    flush_question question) ;;;
  ret (count_rows questions).

Definition delete_group (group_name : string) (delete_questions : bool) : Repo Z :=
  questions <- get_all_questions None (Some group_name) true ;;
  (if delete_questions
   then for_each questions delete_row
   else for_each questions (λ question,
          flush_question (set_group_name "Ungrouped" question))) ;;;
  ret (count_rows questions).

Definition get_question_stats : Repo QuestionStats :=
  total <- select_questions (λ _, true) ;;
  let total_questions := count_rows total in
  active <- select_questions Live.is_active ;;
  let active_questions := count_rows active in
  source_rows <- select_questions Live.is_active ;;
  let by_source := dict_of_rows (group_by_count Live.source_shorthand source_rows) in
  group_rows <- select_questions Live.is_active ;;
  let by_group := dict_of_rows (group_by_count Live.group_name group_rows) in
  let total_groups := Z.of_nat (size by_group) in
  ret {| total_questions := total_questions;
         active_questions := active_questions;
         inactive_questions := total_questions - active_questions;
         total_groups := total_groups;
         questions_by_source := by_source;
         questions_by_group := by_group |}.

End PromptTriggerQuestionRepository.

(** * Vocabulary of the properties *)

(** The live question the update paths write back: the looked-up row with
    the three content fields possibly replaced, the flag set, the version
    bumped and the audit stamp renewed. *)
Definition rewritten (question : Question)
    (question_text group_name source_shorthand : option string)
    (is_active : bool) (updated_at : datetime) (updated_by : string) : Question :=
  {| Live.id := Live.id question;
     Live.question_text := default (Live.question_text question) question_text;
     Live.group_name := default (Live.group_name question) group_name;
     Live.source_shorthand := default (Live.source_shorthand question) source_shorthand;
     Live.version := Live.version question + 1;
     Live.is_active := is_active;
     Live.created_at := Live.created_at question;
     Live.created_by := Live.created_by question;
     Live.updated_at := updated_at;
     Live.updated_by := Some updated_by |}.

(** The store after a tracked mutation: one more history row, the live row
    rewritten, two clock readings taken. *)
Definition tracked_commit (s : Session) (entry : HistoryEntry) (updated : Question)
    : Session :=
  {| prompt_trigger_questions := update_row updated (prompt_trigger_questions s);
     prompt_trigger_questions_history := prompt_trigger_questions_history s ++ [entry];
     next_question_id := next_question_id s;
     next_history_id := next_history_id s + 1;
     clock := S (S (clock s)) |}.

(** ** Store invariants: the schema's constraints *)

(** The foreign key of the history table: every history row's
    [question_id] is the key of a row of the questions table. *)
Definition referential_integrity (s : Session) : Prop :=
  Forall (λ h, Hist.question_id h ∈ Live.id <$> prompt_trigger_questions s)
         (prompt_trigger_questions_history s).

(** Primary keys are unique and were drawn from the auto-increment counters. *)
Record wf_store (s : Session) : Prop := mk_wf_store {
  wf_question_pk : NoDup (Live.id <$> prompt_trigger_questions s);
  wf_history_pk : NoDup (Hist.id <$> prompt_trigger_questions_history s);
  wf_question_ids : Forall (λ q, Live.id q < next_question_id s)
                           (prompt_trigger_questions s);
  wf_history_ids : Forall (λ h, Hist.id h < next_history_id s)
                          (prompt_trigger_questions_history s);
  wf_foreign_key : referential_integrity s
}.

(** A loop over [selected] whose body flushes [write t q] for the object [q]
    it is given, [t] being the clock reading count when the body starts,
    and takes [ticks] readings per round: the row [r'] that the loop,
    started at reading [t0], leaves in the place of [r]. *)
Definition written (write : nat → Question → Question) (ticks : nat)
    (selected : list Question) (t0 : nat) (r r' : Question) : Prop :=
  ((Live.id r ∉ Live.id <$> selected) ∧ r' = r)
  ∨ (∃ q i, q ∈ selected ∧ Live.id q = Live.id r ∧ (i < length selected)%nat
            ∧ r' = write (t0 + ticks * i)%nat q).

(** The values [rename_group] flushes for a selected question. *)
Definition renamed (utcnow_at : nat → datetime) (new_name updated_by : string)
    (t : nat) (q : Question) : Question :=
  {| Live.id := Live.id q;
     Live.question_text := Live.question_text q;
     Live.group_name := new_name;
     Live.source_shorthand := Live.source_shorthand q;
     Live.version := Live.version q;
     Live.is_active := Live.is_active q;
     Live.created_at := Live.created_at q;
     Live.created_by := Live.created_by q;
     Live.updated_at := utcnow_at t;
     Live.updated_by := Some updated_by |}.

(** ** Sequences of tracked mutations *)

(** The three tracked mutation paths, with their arguments. *)
Inductive mutation : Type :=
  | Edit (updated_by : string)
         (question_text group_name source_shorthand reason : option string)
  | Toggle (is_active : bool) (updated_by : string) (reason : option string)
  | Restore (history_id : Z) (restored_by : string) (reason : option string).

(** The history rows of one question, in insertion order. *)
Definition history_of (question_id : Z) (s : Session) : list HistoryEntry :=
  filter (λ h, Hist.question_id h = question_id)
         (prompt_trigger_questions_history s).

Section mutations.
Variable utcnow_at : nat → datetime.

Definition apply_mutation (question_id : Z) (m : mutation)
    : Repo (option Question) :=
  match m with
  | Edit updated_by question_text group_name source_shorthand reason =>
      update_question_with_history utcnow_at question_id updated_by
        question_text group_name source_shorthand reason
  | Toggle is_active updated_by reason =>
      toggle_active_status utcnow_at question_id is_active updated_by reason
  | Restore history_id restored_by reason =>
      restore_question_version utcnow_at question_id history_id restored_by reason
  end.

Definition apply_mutations (question_id : Z) (ms : list mutation) : Repo unit :=
  for_each ms (λ m, apply_mutation question_id m ;;; ret tt).

(** A call is a tracked mutation of the question in store [s] when it takes
    the path that writes: an edit of an existing question, a toggle to the
    other status, a restore from a history row of this question. *)
Definition tracked (question_id : Z) (m : mutation) (s : Session) : bool :=
  match m with
  | Edit _ _ _ _ _ =>
      bool_decide (is_Some (get_question_by_id question_id s).1)
  | Toggle is_active _ _ =>
      match (get_question_by_id question_id s).1 with
      | Some question => negb (bool_decide (Live.is_active question = is_active))
      | None => false
      end
  | Restore history_id _ _ =>
      match (get_history_entry history_id s).1 with
      | Some history_entry =>
          bool_decide (Hist.question_id history_entry = question_id)
      | None => false
      end
  end.

Fixpoint all_tracked (question_id : Z) (ms : list mutation) (s : Session) : Prop :=
  match ms with
  | [] => True
  | m :: rest =>
      tracked question_id m s = true
      ∧ all_tracked question_id rest (apply_mutation question_id m s).2
  end.

End mutations.

(** ** Request validators (backend-schemas-prompt-trigger-questions.py)

    The [field_validator] class methods, as functions.  [str.strip()]
    removes leading and trailing whitespace; which characters count as
    whitespace is Python's [str.isspace], a parameter here. *)

(** A validator returns its value or raises [ValueError(msg)]. *)
Inductive validated (A : Type) : Type :=
  | Valid (value : A)
  | ValueError (msg : string).
Arguments Valid {A} value.
Arguments ValueError {A} msg.

(** [s.lstrip()] *)
Fixpoint lstrip (isspace : Ascii.ascii → bool) (s : string) : string :=
  match s with
  | EmptyString => EmptyString
  | String c rest => if isspace c then lstrip isspace rest else s
  end.

(** [s.rstrip()] *)
Fixpoint rstrip (isspace : Ascii.ascii → bool) (s : string) : string :=
  match s with
  | EmptyString => EmptyString
  | String c rest =>
      match rstrip isspace rest with
      | EmptyString => if isspace c then EmptyString else String c EmptyString
      | kept => String c kept
      end
  end.

(** [s.strip()] *)
Definition strip (isspace : Ascii.ascii → bool) (s : string) : string :=
  rstrip isspace (lstrip isspace s).

(** [not s] for a string. *)
Definition is_empty (s : string) : bool := bool_decide (s = ""%string).

Module CreateQuestionRequest.

Definition validate_question_text (isspace : Ascii.ascii → bool) (v : string)
    : validated string :=
  if is_empty v || is_empty (strip isspace v)
  then ValueError "Question text cannot be empty"
  else Valid (strip isspace v).

Definition validate_group_name (isspace : Ascii.ascii → bool) (v : string)
    : validated string :=
  if is_empty v || is_empty (strip isspace v)
  then ValueError "Group name cannot be empty"
  else Valid (strip isspace v).

End CreateQuestionRequest.

Module UpdateQuestionRequest.

Definition validate_question_text (isspace : Ascii.ascii → bool)
    (v : option string) : validated (option string) :=
  match v with
  | Some text =>
      if is_empty text || is_empty (strip isspace text)
      then ValueError "Question text cannot be empty"
      else Valid (if is_empty text then None else Some (strip isspace text))
  | None => Valid None
  end.

Definition validate_group_name (isspace : Ascii.ascii → bool)
    (v : option string) : validated (option string) :=
  match v with
  | Some name =>
      if is_empty name || is_empty (strip isspace name)
      then ValueError "Group name cannot be empty"
      else Valid (if is_empty name then None else Some (strip isspace name))
  | None => Valid None
  end.

End UpdateQuestionRequest.

Module MoveQuestionRequest.

Definition validate_group_name (isspace : Ascii.ascii → bool) (v : string)
    : validated string :=
  if is_empty v || is_empty (strip isspace v)
  then ValueError "Group name cannot be empty"
  else Valid (strip isspace v).

End MoveQuestionRequest.




(** ** Sequences of repository calls *)

(** The methods that write to the store, with their arguments. *)
Inductive call : Type :=
  | CreateQuestion (question_text group_name source_shorthand : string)
                   (created_by : option string)
  | DeleteQuestion (question_id : Z)
  | UpdateQuestionWithHistory (question_id : Z) (updated_by : string)
      (question_text group_name source_shorthand reason : option string)
  | ToggleActiveStatus (question_id : Z) (is_active : bool)
                       (updated_by : string) (reason : option string)
  | RestoreQuestionVersion (question_id history_id : Z) (restored_by : string)
                           (reason : option string)
  | RenameGroup (old_name new_name updated_by : string)
  | DeleteGroup (group_name : string) (delete_questions : bool).

Section calls.
Variable utcnow_at : nat → datetime.
Variable collate : string → string → comparison.

(** The store a call leaves. *)
Definition run_call (c : call) (s : Session) : Session :=
  match c with
  | CreateQuestion question_text group_name source_shorthand created_by =>
      (create_question utcnow_at question_text group_name source_shorthand
         created_by s).2
  | DeleteQuestion question_id => (delete_question question_id s).2
  | UpdateQuestionWithHistory question_id updated_by question_text group_name
      source_shorthand reason =>
      (update_question_with_history utcnow_at question_id updated_by
         question_text group_name source_shorthand reason s).2
  | ToggleActiveStatus question_id is_active updated_by reason =>
      (toggle_active_status utcnow_at question_id is_active updated_by reason s).2
  | RestoreQuestionVersion question_id history_id restored_by reason =>
      (restore_question_version utcnow_at question_id history_id restored_by
         reason s).2
  | RenameGroup old_name new_name updated_by =>
      (rename_group utcnow_at collate old_name new_name updated_by s).2
  | DeleteGroup group_name delete_questions =>
      (delete_group collate group_name delete_questions s).2
  end.

Definition run_calls (calls : list call) (s : Session) : Session :=
  foldl (λ s c, run_call c s) s calls.

End calls.

(** The calls that delete rows. *)
Definition deletes (c : call) : bool :=
  match c with
  | DeleteQuestion _ | DeleteGroup _ true => true
  | _ => false
  end.

(** The calls of the three tracked mutation paths. *)
Definition is_tracked_call (c : call) : bool :=
  match c with
  | UpdateQuestionWithHistory _ _ _ _ _ _
  | ToggleActiveStatus _ _ _ _
  | RestoreQuestionVersion _ _ _ _ => true
  | _ => false
  end.


(** The total of the counts of a grouped count. *)
Definition sum_counts (rows : list (string * Z)) : Z :=
  foldr (λ row total, row.2 + total) 0 rows.

(** ** Example data

    The running example: question 1 is created as
    [("Q1", "G", "A")] by alice, then edited to ["Q2"] by bob.  Questions
    2 and 4 share its group ["G"], question 3 is in group ["X"], and
    question 4 is deactivated after its creation. *)

Definition example_clock (n : nat) : datetime := 1700000000 + Z.of_nat n.

Definition example_created : Session :=
  (create_question example_clock "Q1" "G" "A" (Some "alice"%string)
     empty_session).2.

Definition example_edited : Session :=
  (update_question_with_history example_clock 1 "bob"
     (Some "Q2"%string) None None None example_created).2.

Definition example_groups : Session :=
  (toggle_active_status example_clock 4 false "bob" None
     (create_question example_clock "Q5" "G" "A" (Some "bob"%string)
        (create_question example_clock "Q4" "X" "E" None
           (create_question example_clock "Q3" "G" "K" (Some "alice"%string)
              example_edited).2).2).2).2.

(** Question 1 as created, as edited, and the snapshot the edit left;
    question 4 after its deactivation. *)
Definition example_q1_created : Question :=
  {| Live.id := 1;
     Live.question_text := "Q1";
     Live.group_name := "G";
     Live.source_shorthand := "A";
     Live.version := 1;
     Live.is_active := true;
     Live.created_at := 1700000000;
     Live.created_by := Some "alice"%string;
     Live.updated_at := 1700000001;
     Live.updated_by := Some "alice"%string |}.

Definition example_q1_edited : Question :=
  {| Live.id := 1;
     Live.question_text := "Q2";
     Live.group_name := "G";
     Live.source_shorthand := "A";
     Live.version := 2;
     Live.is_active := true;
     Live.created_at := 1700000000;
     Live.created_by := Some "alice"%string;
     Live.updated_at := 1700000003;
     Live.updated_by := Some "bob"%string |}.

Definition example_h1 : HistoryEntry :=
  {| Hist.id := 1;
     Hist.question_id := 1;
     Hist.question_text := "Q1";
     Hist.group_name := "G";
     Hist.source_shorthand := "A";
     Hist.version := 1;
     Hist.created_at := 1700000000;
     Hist.created_by := Some "alice"%string;
     Hist.replaced_at := 1700000002;
     Hist.replaced_by := Some "bob"%string;
     Hist.reason := None |}.

Definition example_q4 : Question :=
  {| Live.id := 4;
     Live.question_text := "Q5";
     Live.group_name := "G";
     Live.source_shorthand := "A";
     Live.version := 2;
     Live.is_active := false;
     Live.created_at := 1700000008;
     Live.created_by := Some "bob"%string;
     Live.updated_at := 1700000011;
     Live.updated_by := Some "bob"%string |}.

Definition example_mutations : list mutation :=
  [Edit "bob" (Some "Q2"%string) None None None;
   Restore 1 "carol" None;
   Toggle false "dave" None].



(** * Properties *)

(** ** Generic facts: [.first()] of a filtered table, and row updates *)

Section first_of_filter.
Context {A : Type} (P : A → Prop) `{!∀ x, Decision (P x)}.

Lemma first_filter_Some (l : list A) (x : A) :
  head (filter P l) = Some x → x ∈ l ∧ P x.
Proof.
  intros Hx. assert (x ∈ filter P l) as Hin.
  { destruct (filter P l); simplify_eq/=. left. }
  apply list_elem_of_filter in Hin. tauto.
Qed.

Lemma first_filter_None (l : list A) :
  head (filter P l) = None ↔ Forall (λ x, ¬ P x) l.
Proof.
  induction l as [|a l IH]; simpl.
  - split; [constructor | done].
  - rewrite filter_cons. destruct (decide (P a)) as [Ha|Ha]; simpl.
    + split; [done | intros Hall; inversion Hall; contradiction].
    + rewrite IH. split; [by constructor | by inversion 1].
Qed.

Lemma filter_keep_all (l : list A) : (∀ x, P x) → filter P l = l.
Proof.
  intros HP. induction l as [|a l IH]; [done|].
  rewrite filter_cons, decide_True by done. by rewrite IH.
Qed.

Lemma filter_keep_all_in (l : list A) : (∀ x, x ∈ l → P x) → filter P l = l.
Proof.
  intros HP. induction l as [|a l IH]; [done|].
  rewrite filter_cons, decide_True by (apply HP; left).
  rewrite IH; [done|]. intros x Hx. apply HP. by right.
Qed.

Lemma filter_ext_in (R : A → Prop) `{!∀ x, Decision (R x)} (l : list A) :
  (∀ x, x ∈ l → P x ↔ R x) → filter P l = filter R l.
Proof.
  intros Hiff. induction l as [|a l IH]; [done|].
  rewrite !filter_cons, IH by (intros x Hx; apply Hiff; by right).
  destruct (decide (P a)) as [HP|HP].
  - rewrite decide_True; [done|]. apply Hiff; [left | done].
  - rewrite decide_False; [done|]. intros HR. apply HP, Hiff; [left | done].
Qed.

Lemma filter_drop_all (l : list A) : Forall (λ x, ¬ P x) l → filter P l = [].
Proof.
  intros HP%first_filter_None. by destruct (filter P l).
Qed.

Lemma Forall_filter_keep (R : A → Prop) (l : list A) :
  Forall R l → Forall R (filter P l).
Proof.
  rewrite !Forall_forall. intros Hall x Hx.
  apply list_elem_of_filter in Hx as [_ Hx]. by apply Hall.
Qed.

End first_of_filter.

Lemma update_row_id (q : Question) (rows : list Question) :
  Live.id <$> update_row q rows = Live.id <$> rows.
Proof.
  unfold update_row. rewrite <- list_fmap_compose. apply list_fmap_ext.
  intros i r _. simpl. by case_bool_decide.
Qed.

(** After [UPDATE ... WHERE id = pk], a lookup by another key is unaffected
    and a lookup by [pk], when it found a row before, finds the new values. *)
Lemma first_update_row_ne (q : Question) (k : Z) (rows : list Question) :
  k ≠ Live.id q →
  head (filter (λ r, bool_decide (Live.id r = k) = true) (update_row q rows))
  = head (filter (λ r, bool_decide (Live.id r = k) = true) rows).
Proof.
  intros Hk. induction rows as [|r rows IH]; [done|].
  unfold update_row in *. rewrite fmap_cons, !filter_cons.
  destruct (decide (Live.id r = Live.id q)) as [Hr|Hr].
  - rewrite (bool_decide_eq_true_2 _ Hr).
    rewrite !decide_False; [exact IH | |];
      intros E%bool_decide_eq_true; congruence.
  - rewrite (bool_decide_eq_false_2 _ Hr).
    destruct (decide (bool_decide (Live.id r = k) = true)); [done | exact IH].
Qed.

Lemma first_update_row_eq (q : Question) (rows : list Question) :
  is_Some (head (filter (λ r, bool_decide (Live.id r = Live.id q) = true) rows)) →
  head (filter (λ r, bool_decide (Live.id r = Live.id q) = true) (update_row q rows))
  = Some q.
Proof.
  induction rows as [|r rows IH]; [by intros [? ?]|].
  unfold update_row in *. rewrite fmap_cons, !filter_cons.
  destruct (decide (Live.id r = Live.id q)) as [Hr|Hr].
  - intros _. rewrite (bool_decide_eq_true_2 _ Hr).
    rewrite decide_True; [done|]. by apply bool_decide_eq_true.
  - rewrite (bool_decide_eq_false_2 _ Hr).
    rewrite !decide_False; [exact IH | | done].
    by intros E%bool_decide_eq_true.
Qed.

Section lookups.
Variable utcnow_at : nat → datetime.

Lemma get_question_by_id_pair question_id s :
  get_question_by_id question_id s = (fst (get_question_by_id question_id s), s).
Proof. reflexivity. Qed.

Lemma get_question_by_id_Some question_id s q :
  fst (get_question_by_id question_id s) = Some q →
  q ∈ prompt_trigger_questions s ∧ Live.id q = question_id.
Proof.
  intros Hq. apply first_filter_Some in Hq as [Hin Hid].
  by apply bool_decide_eq_true in Hid.
Qed.

Lemma get_question_by_id_None question_id s :
  fst (get_question_by_id question_id s) = None ↔
  question_id ∉ Live.id <$> prompt_trigger_questions s.
Proof.
  unfold get_question_by_id, bind, select_questions, ret. simpl.
  rewrite first_filter_None, Forall_forall, list_elem_of_fmap. split.
  - intros Hall (q & -> & Hin). apply (Hall q Hin). by apply bool_decide_eq_true.
  - intros Hno q Hin Hid%bool_decide_eq_true. apply Hno. eauto.
Qed.

Lemma get_history_entry_pair history_id s :
  get_history_entry history_id s = (fst (get_history_entry history_id s), s).
Proof. reflexivity. Qed.

Lemma get_history_entry_Some history_id s h :
  fst (get_history_entry history_id s) = Some h →
  h ∈ prompt_trigger_questions_history s ∧ Hist.id h = history_id.
Proof.
  intros Hh. apply first_filter_Some in Hh as [Hin Hid].
  by apply bool_decide_eq_true in Hid.
Qed.

(** What [update_question_with_history] does when the lookup succeeds. *)
Lemma update_question_with_history_found s question_id updated_by
    question_text group_name source_shorthand reason question :
  fst (get_question_by_id question_id s) = Some question →
  update_question_with_history utcnow_at question_id updated_by
    question_text group_name source_shorthand reason s
  = (Some (rewritten question question_text group_name source_shorthand
             (Live.is_active question) (utcnow_at (S (clock s))) updated_by),
     tracked_commit s
       (snapshot question (utcnow_at (clock s)) updated_by reason (next_history_id s))
       (rewritten question question_text group_name source_shorthand
          (Live.is_active question) (utcnow_at (S (clock s))) updated_by)).
Proof.
  intros Hq. unfold update_question_with_history, bind at 1.
  rewrite (get_question_by_id_pair question_id s), Hq.
  by destruct question_text, group_name, source_shorthand.
Qed.

Lemma update_question_with_history_missing s question_id updated_by
    question_text group_name source_shorthand reason :
  fst (get_question_by_id question_id s) = None →
  update_question_with_history utcnow_at question_id updated_by
    question_text group_name source_shorthand reason s = (None, s).
Proof.
  intros Hq. unfold update_question_with_history, bind at 1.
  by rewrite (get_question_by_id_pair question_id s), Hq.
Qed.

(** Lookups in the store left by a tracked mutation. *)
Lemma tracked_commit_lookup_eq s entry updated :
  is_Some (fst (get_question_by_id (Live.id updated) s)) →
  get_question_by_id (Live.id updated) (tracked_commit s entry updated)
  = (Some updated, tracked_commit s entry updated).
Proof.
  intros Hq. rewrite get_question_by_id_pair. f_equal.
  by apply first_update_row_eq.
Qed.

Lemma tracked_commit_lookup_ne s entry updated k :
  k ≠ Live.id updated →
  fst (get_question_by_id k (tracked_commit s entry updated))
  = fst (get_question_by_id k s).
Proof. intros Hk. by apply first_update_row_ne. Qed.

Lemma tracked_commit_lookup_rewritten s question_id entry question
    question_text group_name source_shorthand is_active updated_at updated_by :
  fst (get_question_by_id question_id s) = Some question →
  get_question_by_id question_id
    (tracked_commit s entry
       (rewritten question question_text group_name source_shorthand
          is_active updated_at updated_by))
  = (Some (rewritten question question_text group_name source_shorthand
             is_active updated_at updated_by),
     tracked_commit s entry
       (rewritten question question_text group_name source_shorthand
          is_active updated_at updated_by)).
Proof.
  intros Hq. destruct (get_question_by_id_Some _ _ _ Hq) as [_ Hid].
  pose proof (tracked_commit_lookup_eq s entry
    (rewritten question question_text group_name source_shorthand
       is_active updated_at updated_by)) as Hlookup.
  change (Live.id (rewritten question question_text group_name source_shorthand
                  is_active updated_at updated_by))
    with (Live.id question) in Hlookup.
  rewrite Hid in Hlookup. apply Hlookup. rewrite Hq. eauto.
Qed.

End lookups.

Lemma referential_integrity_lookup s h :
  referential_integrity s →
  h ∈ prompt_trigger_questions_history s →
  is_Some (fst (get_question_by_id (Hist.question_id h) s)).
Proof.
  intros Hfk Hh. unfold referential_integrity in Hfk.
  rewrite Forall_forall in Hfk. specialize (Hfk h Hh).
  destruct (fst (get_question_by_id (Hist.question_id h) s)) eqn:E; [eauto|].
  by apply get_question_by_id_None in E.
Qed.

(** ** The versioned-update engine *)

Section versioned_update.
Variable utcnow_at : nat → datetime.

(** C1.  [update_question_with_history] on an existing question appends one
    history row holding the pre-change content, version and creation stamp,
    with [replaced_by] the acting user and the given reason; the live row
    gets exactly the given fields (absent ones keep their values), its
    version plus one and a new update stamp, and is what the method
    returns; other questions are untouched.  On an unknown id it returns
    [None] and changes nothing. *)
Theorem update_question_with_history_correct s question_id updated_by
    question_text group_name source_shorthand reason :
  (∀ question, fst (get_question_by_id question_id s) = Some question →
     ∃ entry updated s',
       update_question_with_history utcnow_at question_id updated_by
         question_text group_name source_shorthand reason s = (Some updated, s')
       ∧ prompt_trigger_questions_history s'
         = prompt_trigger_questions_history s ++ [entry]
       ∧ entry = {| Hist.id := next_history_id s;
                    Hist.question_id := question_id;
                    Hist.question_text := Live.question_text question;
                    Hist.group_name := Live.group_name question;
                    Hist.source_shorthand := Live.source_shorthand question;
                    Hist.version := Live.version question;
                    Hist.created_at := Live.created_at question;
                    Hist.created_by := Live.created_by question;
                    Hist.replaced_at := utcnow_at (clock s);
                    Hist.replaced_by := Some updated_by;
                    Hist.reason := reason |}
       ∧ updated = {| Live.id := question_id;
                      Live.question_text := default (Live.question_text question) question_text;
                      Live.group_name := default (Live.group_name question) group_name;
                      Live.source_shorthand :=
                        default (Live.source_shorthand question) source_shorthand;
                      Live.version := Live.version question + 1;
                      Live.is_active := Live.is_active question;
                      Live.created_at := Live.created_at question;
                      Live.created_by := Live.created_by question;
                      Live.updated_at := utcnow_at (S (clock s));
                      Live.updated_by := Some updated_by |}
       ∧ get_question_by_id question_id s' = (Some updated, s')
       ∧ (∀ k, k ≠ question_id →
            fst (get_question_by_id k s') = fst (get_question_by_id k s)))
  ∧ (question_id ∉ Live.id <$> prompt_trigger_questions s →
     update_question_with_history utcnow_at question_id updated_by
       question_text group_name source_shorthand reason s = (None, s)).
Proof.
  split.
  - intros question Hq.
    destruct (get_question_by_id_Some _ _ _ Hq) as [_ Hid].
    eexists _, _, _. split; [by apply update_question_with_history_found|].
    split; [done|]. split; [by rewrite <- Hid|].
    split; [by rewrite <- Hid|]. split.
    + by apply tracked_commit_lookup_rewritten.
    + intros k Hk. apply tracked_commit_lookup_ne.
      change (k ≠ Live.id question). congruence.
  - intros Hmissing. apply update_question_with_history_missing.
    by apply get_question_by_id_None.
Qed.

(** C6.  With all three content fields absent the update is still a tracked
    mutation: a history row snapshots the (unchanged) content and the
    current version, the version goes up by one and the update stamp is
    renewed; the content of the live row stays as it was. *)
Theorem update_question_with_history_no_changes s question_id updated_by reason
    question :
  fst (get_question_by_id question_id s) = Some question →
  ∃ entry updated s',
    update_question_with_history utcnow_at question_id updated_by
      None None None reason s = (Some updated, s')
    ∧ prompt_trigger_questions_history s'
      = prompt_trigger_questions_history s ++ [entry]
    ∧ Hist.question_id entry = Live.id question
    ∧ Hist.question_text entry = Live.question_text question
    ∧ Hist.group_name entry = Live.group_name question
    ∧ Hist.source_shorthand entry = Live.source_shorthand question
    ∧ Hist.version entry = Live.version question
    ∧ Hist.reason entry = reason
    ∧ Live.version updated = Live.version question + 1
    ∧ Live.updated_at updated = utcnow_at (S (clock s))
    ∧ Live.updated_by updated = Some updated_by
    ∧ Live.question_text updated = Live.question_text question
    ∧ Live.group_name updated = Live.group_name question
    ∧ Live.source_shorthand updated = Live.source_shorthand question
    ∧ get_question_by_id question_id s' = (Some updated, s').
Proof.
  intros Hq. destruct (get_question_by_id_Some _ _ _ Hq) as [_ Hid].
  eexists _, _, _. split; [by apply update_question_with_history_found|].
  repeat (split; [reflexivity|]).
  by apply tracked_commit_lookup_rewritten.
Qed.

(** C5.  Toggling to the status the question already has returns the
    question as it is and leaves the whole store (both tables, counters,
    clock) as it was. *)
Theorem toggle_active_status_same_status s question_id is_active updated_by
    reason question :
  fst (get_question_by_id question_id s) = Some question →
  Live.is_active question = is_active →
  toggle_active_status utcnow_at question_id is_active updated_by reason s
  = (Some question, s).
Proof.
  intros Hq Hactive. unfold toggle_active_status, bind at 1.
  rewrite (get_question_by_id_pair question_id s), Hq.
  by rewrite (bool_decide_eq_true_2 _ Hactive).
Qed.

(** What [toggle_active_status] does when the status really changes. *)
Lemma toggle_active_status_changed s question_id is_active updated_by reason
    question :
  fst (get_question_by_id question_id s) = Some question →
  Live.is_active question ≠ is_active →
  toggle_active_status utcnow_at question_id is_active updated_by reason s
  = (Some (rewritten question None None None is_active
             (utcnow_at (S (clock s))) updated_by),
     tracked_commit s
       (snapshot question (utcnow_at (clock s)) updated_by
          (py_or reason
             ((if is_active then "Activated" else "Deactivated") +:+ " question"))
          (next_history_id s))
       (rewritten question None None None is_active
          (utcnow_at (S (clock s))) updated_by)).
Proof.
  intros Hq Hactive. unfold toggle_active_status, bind at 1.
  rewrite (get_question_by_id_pair question_id s), Hq.
  by rewrite (bool_decide_eq_false_2 _ Hactive).
Qed.

(** What [restore_question_version] does once the history row is found and
    belongs to the question: it is the update with the snapshot's content. *)
Lemma restore_question_version_delegates s question_id history_id restored_by
    reason history_entry :
  fst (get_history_entry history_id s) = Some history_entry →
  Hist.question_id history_entry = question_id →
  restore_question_version utcnow_at question_id history_id restored_by reason s
  = update_question_with_history utcnow_at question_id restored_by
      (Some (Hist.question_text history_entry))
      (Some (Hist.group_name history_entry))
      (Some (Hist.source_shorthand history_entry))
      (py_or reason ("Restored to version " +:+ pretty (Hist.version history_entry))) s.
Proof.
  intros Hh Hid. unfold restore_question_version, bind at 1.
  rewrite (get_history_entry_pair history_id s), Hh.
  rewrite bool_decide_eq_false_2; [done|]. by intros [].
Qed.

(** C3.  Restoring question [question_id] from one of its history rows
    overwrites the three content fields of the live row with the snapshot's,
    makes the version the current one plus one (not the snapshot's), appends
    a history row that snapshots the state before the restore, and records
    the reason ["Restored to version N"], [N] the snapshot's version, when
    none is given. *)
Theorem restore_question_version_correct s question_id history_id restored_by
    reason history_entry question :
  fst (get_history_entry history_id s) = Some history_entry →
  Hist.question_id history_entry = question_id →
  fst (get_question_by_id question_id s) = Some question →
  ∃ entry restored s',
    restore_question_version utcnow_at question_id history_id restored_by reason s
    = (Some restored, s')
    ∧ get_question_by_id question_id s' = (Some restored, s')
    ∧ Live.question_text restored = Hist.question_text history_entry
    ∧ Live.group_name restored = Hist.group_name history_entry
    ∧ Live.source_shorthand restored = Hist.source_shorthand history_entry
    ∧ Live.version restored = Live.version question + 1
    ∧ prompt_trigger_questions_history s'
      = prompt_trigger_questions_history s ++ [entry]
    ∧ Hist.question_id entry = question_id
    ∧ Hist.question_text entry = Live.question_text question
    ∧ Hist.group_name entry = Live.group_name question
    ∧ Hist.source_shorthand entry = Live.source_shorthand question
    ∧ Hist.version entry = Live.version question
    ∧ Hist.created_at entry = Live.created_at question
    ∧ Hist.created_by entry = Live.created_by question
    ∧ Hist.replaced_by entry = Some restored_by
    ∧ (reason = None →
       Hist.reason entry
       = Some ("Restored to version " +:+ pretty (Hist.version history_entry)))
    ∧ (truthy reason = true → Hist.reason entry = reason).
Proof.
  intros Hh Hhid Hq. destruct (get_question_by_id_Some _ _ _ Hq) as [_ Hid].
  eexists _, _, _. split.
  { rewrite (restore_question_version_delegates _ _ _ _ _ _ Hh Hhid).
    by apply update_question_with_history_found. }
  split; [by apply tracked_commit_lookup_rewritten|].
  repeat (split; [done|]). simpl. split.
  - by intros ->.
  - unfold py_or. by intros ->.
Qed.

(** C10.  Under referential integrity, a restore whose history row is found
    and belongs to the given question cannot fall into the [None] branch of
    the update it delegates to: it returns the updated question. *)
Theorem restore_question_version_returns s question_id history_id restored_by
    reason history_entry :
  referential_integrity s →
  fst (get_history_entry history_id s) = Some history_entry →
  Hist.question_id history_entry = question_id →
  ∃ question,
    fst (get_question_by_id question_id s) = Some question
    ∧ fst (restore_question_version utcnow_at question_id history_id
             restored_by reason s)
      = Some (rewritten question
                (Some (Hist.question_text history_entry))
                (Some (Hist.group_name history_entry))
                (Some (Hist.source_shorthand history_entry))
                (Live.is_active question) (utcnow_at (S (clock s))) restored_by).
Proof.
  intros Hfk Hh Hhid.
  destruct (get_history_entry_Some _ _ _ Hh) as [Hin _].
  destruct (referential_integrity_lookup s _ Hfk Hin) as [question Hq].
  rewrite Hhid in Hq. exists question. split; [done|].
  rewrite (restore_question_version_delegates _ _ _ _ _ _ Hh Hhid).
  by rewrite (update_question_with_history_found _ _ _ _ _ _ _ _ _ Hq).
Qed.

(** C4.  In a store that satisfies the foreign key, a restore returns [None]
    exactly when no history row has the given id or the row found belongs
    to another question; and whenever it returns [None] the store is left
    as it was. *)
Theorem restore_question_version_not_found s question_id history_id restored_by
    reason :
  referential_integrity s →
  (fst (restore_question_version utcnow_at question_id history_id
          restored_by reason s) = None
   ↔ fst (get_history_entry history_id s) = None
     ∨ ∃ history_entry,
         fst (get_history_entry history_id s) = Some history_entry
         ∧ Hist.question_id history_entry ≠ question_id)
  ∧ (fst (restore_question_version utcnow_at question_id history_id
            restored_by reason s) = None →
     snd (restore_question_version utcnow_at question_id history_id
            restored_by reason s) = s).
Proof.
  intros Hfk.
  destruct (fst (get_history_entry history_id s)) as [history_entry|] eqn:Hh.
  - destruct (decide (Hist.question_id history_entry = question_id)) as [Hid|Hid].
    + destruct (restore_question_version_returns s _ _ restored_by reason _
                  Hfk Hh Hid) as (question & _ & Hr).
      rewrite Hr. split; [|done]. split; [done|].
      intros [?|(h & ? & ?)]; [done | naive_solver].
    + assert (restore_question_version utcnow_at question_id history_id
                restored_by reason s = (None, s)) as ->.
      { unfold restore_question_version, bind at 1.
        rewrite (get_history_entry_pair history_id s), Hh.
        by rewrite (bool_decide_eq_true_2 _ Hid). }
      split; [|done]. split; [|done]. intros _. right. eauto.
  - assert (restore_question_version utcnow_at question_id history_id
              restored_by reason s = (None, s)) as ->.
    { unfold restore_question_version, bind at 1.
      by rewrite (get_history_entry_pair history_id s), Hh. }
    split; [|done]. split; [|done]. intros _. by left.
Qed.

End versioned_update.

(** ** Statistics *)

Lemma dict_of_rows_dom_from (rows : list (string * Z)) (d : gmap string Z) :
  dom (foldl (λ d row, <[row.1 := row.2]> d) d rows)
  = dom d ∪ list_to_set rows.*1.
Proof.
  revert d. induction rows as [|row rows IH]; intros d; simpl.
  - by rewrite union_empty_r_L.
  - rewrite IH, dom_insert_L, (union_comm_L {[row.1]} (dom d)).
    by rewrite (assoc_L (∪)).
Qed.

Lemma dict_of_rows_dom (rows : list (string * Z)) :
  dom (dict_of_rows rows) = list_to_set rows.*1.
Proof.
  unfold dict_of_rows. by rewrite dict_of_rows_dom_from, dom_empty_L, union_empty_l_L.
Qed.

Lemma group_by_count_keys (key : Question → string) (rows : list Question) :
  (group_by_count key rows).*1 = remove_dups (key <$> rows).
Proof.
  unfold group_by_count. rewrite <- list_fmap_compose. apply list_fmap_id.
Qed.

Lemma list_to_set_remove_dups_string (l : list string) :
  list_to_set (remove_dups l) =@{gset string} list_to_set l.
Proof.
  apply set_eq. intros x. by rewrite !elem_of_list_to_set, elem_of_remove_dups.
Qed.

(** The dict built from a grouped count has one key per distinct value. *)
Lemma dict_of_group_by_count_size (key : Question → string) (rows : list Question) :
  size (dict_of_rows (group_by_count key rows))
  = size (list_to_set (key <$> rows) : gset string).
Proof.
  rewrite <- size_dom, dict_of_rows_dom, group_by_count_keys.
  by rewrite list_to_set_remove_dups_string.
Qed.

(** Folding rows with pairwise distinct keys into a dict keeps every row. *)
Lemma dict_of_rows_lookup_from (rows : list (string * Z)) (d : gmap string Z)
    (k : string) (v : Z) :
  NoDup rows.*1 → (k, v) ∈ rows →
  foldl (λ d row, <[row.1 := row.2]> d) d rows !! k = Some v.
Proof.
  revert d. induction rows as [|row rows IH]; intros d Hnd Hin; simpl.
  - by apply elem_of_nil in Hin.
  - rewrite fmap_cons in Hnd. apply NoDup_cons in Hnd as [Hfresh Hnd].
    apply elem_of_cons in Hin as [<-|Hin]; [|by apply IH].
    simpl in *. clear IH. revert d.
    induction rows as [|row rows IH]; intros d; simpl.
    + apply lookup_insert_eq.
    + rewrite fmap_cons in Hfresh, Hnd.
      apply not_elem_of_cons in Hfresh as [Hne Hfresh].
      apply NoDup_cons in Hnd as [_ Hnd].
      rewrite insert_insert_ne by done. by apply IH.
Qed.

(** Each key of the grouped-count dict maps to the number of rows carrying it. *)
Lemma dict_of_group_by_count_lookup (key : Question → string)
    (rows : list Question) (q : Question) :
  q ∈ rows →
  dict_of_rows (group_by_count key rows) !! key q
  = Some (count_rows (filter (λ r, key r = key q) rows)).
Proof.
  intros Hq. apply dict_of_rows_lookup_from.
  - rewrite group_by_count_keys. apply NoDup_remove_dups.
  - unfold group_by_count. apply list_elem_of_fmap.
    exists (key q). split; [done|].
    apply elem_of_remove_dups, list_elem_of_fmap. eauto.
Qed.

Lemma filter_all_rows {A : Type} (rows : list A) :
  filter (λ _ : A, true = true) rows = rows.
Proof. by apply filter_keep_all. Qed.

Lemma count_rows_split (rows : list Question) :
  count_rows rows
  = count_rows (filter (λ q, Live.is_active q = true) rows)
    + count_rows (filter (λ q, Live.is_active q = false) rows).
Proof.
  unfold count_rows. induction rows as [|r rows IH]; [done|].
  rewrite !filter_cons.
  destruct (Live.is_active r) eqn:E; simpl in *;
    repeat case_decide; try done; simpl; lia.
Qed.

(** C8.  The statistics: the inactive count is the total minus the active
    count (and is the number of inactive rows), and the group count is the
    number of keys of the group-name dict, which is the number of distinct
    group names among the active questions.  The store is only read. *)
Theorem get_question_stats_correct (s : Session) :
  inactive_questions (get_question_stats s).1
  = total_questions (get_question_stats s).1
    - active_questions (get_question_stats s).1
  ∧ total_questions (get_question_stats s).1
    = count_rows (prompt_trigger_questions s)
  ∧ active_questions (get_question_stats s).1
    = count_rows (filter (λ q, Live.is_active q = true) (prompt_trigger_questions s))
  ∧ inactive_questions (get_question_stats s).1
    = count_rows (filter (λ q, Live.is_active q = false) (prompt_trigger_questions s))
  ∧ total_groups (get_question_stats s).1
    = Z.of_nat (size (dom (questions_by_group (get_question_stats s).1)))
  ∧ total_groups (get_question_stats s).1
    = Z.of_nat (size (list_to_set
                        (Live.group_name
                           <$> filter (λ q, Live.is_active q = true)
                                      (prompt_trigger_questions s))
                      : gset string))
  ∧ (get_question_stats s).2 = s.
Proof.
  unfold get_question_stats, bind, select_questions, ret. simpl.
  rewrite filter_all_rows.
  split; [done|]. split; [done|]. split; [done|]. split.
  { rewrite (count_rows_split (prompt_trigger_questions s)). lia. }
  split; [by rewrite size_dom|].
  split; [by rewrite dict_of_group_by_count_size | done].
Qed.

(** ** The store invariant is kept by the storage primitives *)

Lemma wf_store_empty : wf_store empty_session.
Proof. split; simpl; constructor. Qed.

Lemma wf_store_flush_question (q : Question) (s : Session) :
  wf_store s → wf_store (flush_question q s).2.
Proof.
  intros [Hq Hh Hqi Hhi Hfk]. split; simpl; try done.
  - by rewrite update_row_id.
  - rewrite Forall_forall in Hqi |- *. intros r Hr.
    assert (Live.id r ∈ Live.id <$> update_row q (prompt_trigger_questions s)) as Hid.
    { apply list_elem_of_fmap. eauto. }
    rewrite update_row_id in Hid.
    apply list_elem_of_fmap in Hid as (r0 & -> & Hr0). by apply Hqi.
  - unfold referential_integrity in *. simpl. by rewrite update_row_id.
Qed.

Lemma wf_store_insert_history (new : Z → HistoryEntry) (s : Session) :
  (∀ pk, Hist.id (new pk) = pk) →
  (∀ pk, Hist.question_id (new pk) ∈ Live.id <$> prompt_trigger_questions s) →
  wf_store s → wf_store (insert_history new s).2.
Proof.
  intros Hpk Hparent [Hq Hh Hqi Hhi Hfk]. split; simpl; try done.
  - rewrite fmap_app. apply NoDup_app. split; [done|]. split.
    + intros k Hk Hin. apply list_elem_of_fmap in Hk as (h & -> & Hk).
      rewrite Forall_forall in Hhi. specialize (Hhi h Hk).
      simpl in Hin. apply list_elem_of_singleton in Hin. rewrite Hpk in Hin. lia.
    + simpl. apply NoDup_singleton.
  - apply Forall_app. split.
    + eapply Forall_impl; [exact Hhi|]. simpl. intros; lia.
    + apply Forall_singleton. rewrite Hpk. lia.
  - unfold referential_integrity in *. simpl.
    apply Forall_app. split; [done|]. by apply Forall_singleton.
Qed.

Lemma wf_store_insert_question (new : Z → Question) (s : Session) :
  (∀ pk, Live.id (new pk) = pk) →
  wf_store s → wf_store (insert_question new s).2.
Proof.
  intros Hpk [Hq Hh Hqi Hhi Hfk]. split; simpl; try done.
  - rewrite fmap_app. apply NoDup_app. split; [done|]. split.
    + intros k Hk Hin. apply list_elem_of_fmap in Hk as (q & -> & Hk).
      rewrite Forall_forall in Hqi. specialize (Hqi q Hk).
      simpl in Hin. apply list_elem_of_singleton in Hin. rewrite Hpk in Hin. lia.
    + simpl. apply NoDup_singleton.
  - apply Forall_app. split.
    + eapply Forall_impl; [exact Hqi|]. simpl. intros; lia.
    + apply Forall_singleton. rewrite Hpk. lia.
  - unfold referential_integrity in *. simpl.
    eapply Forall_impl; [exact Hfk|]. simpl. intros h Hin.
    rewrite fmap_app. apply elem_of_app. by left.
Qed.

Lemma wf_store_delete_row (q : Question) (s : Session) :
  wf_store s → wf_store (delete_row q s).2.
Proof.
  intros [Hq Hh Hqi Hhi Hfk]. split; simpl.
  - eapply sublist_NoDup; [exact Hq|]. apply fmap_sublist, sublist_filter.
  - eapply sublist_NoDup; [exact Hh|]. apply fmap_sublist, sublist_filter.
  - by apply Forall_filter_keep.
  - by apply Forall_filter_keep.
  - unfold referential_integrity in *. simpl.
    rewrite Forall_forall in Hfk |- *. intros h Hin.
    apply list_elem_of_filter in Hin as [Hne Hin].
    specialize (Hfk h Hin). apply list_elem_of_fmap in Hfk as (r & Hid & Hr).
    apply list_elem_of_fmap. exists r. split; [done|].
    apply list_elem_of_filter. split; [congruence | done].
Qed.

(** An invariant of the body of a loop is an invariant of the loop. *)
Lemma for_each_invariant {A : Type} (I : Session → Prop) (body : A → Repo unit)
    (xs : list A) (s : Session) :
  (∀ x s, I s → I (body x s).2) → I s → I (for_each xs body s).2.
Proof.
  intros Hbody. revert s. induction xs as [|x xs IH]; intros s Hs; [done|].
  simpl. unfold bind. specialize (Hbody x s Hs).
  destruct (body x s) as [[] s1]. by apply IH.
Qed.

(** The invariant does not mention the clock. *)
Lemma wf_store_tables (s s' : Session) :
  prompt_trigger_questions s' = prompt_trigger_questions s →
  prompt_trigger_questions_history s' = prompt_trigger_questions_history s →
  next_question_id s' = next_question_id s →
  next_history_id s' = next_history_id s →
  wf_store s → wf_store s'.
Proof.
  intros E1 E2 E3 E4 [Hq Hh Hqi Hhi Hfk].
  split; unfold referential_integrity in *; by rewrite ?E1, ?E2, ?E3, ?E4.
Qed.

Lemma wf_store_tracked_commit (s : Session) (question updated : Question)
    (replaced_at : datetime) (replaced_by : string) (reason : option string) :
  question ∈ prompt_trigger_questions s →
  wf_store s →
  wf_store (tracked_commit s
              (snapshot question replaced_at replaced_by reason (next_history_id s))
              updated).
Proof.
  intros Hin Hwf.
  apply (wf_store_tables
           (flush_question updated
              (insert_history (snapshot question replaced_at replaced_by reason) s).2).2);
    try reflexivity.
  apply wf_store_flush_question, wf_store_insert_history; [done | | done].
  intros pk. simpl. apply list_elem_of_fmap. eauto.
Qed.

(** ** Loops over selected questions *)

Lemma NoDup_fmap_elem_eq {A B : Type} (f : A → B) (l : list A) (x y : A) :
  NoDup (f <$> l) → x ∈ l → y ∈ l → f x = f y → x = y.
Proof.
  intros Hnd Hx Hy Hf.
  apply list_elem_of_lookup in Hx as [i Hi].
  apply list_elem_of_lookup in Hy as [j Hj].
  assert (i = j) as ->; [|congruence].
  eapply NoDup_lookup; [exact Hnd | |].
  - by rewrite list_lookup_fmap, Hi.
  - by rewrite list_lookup_fmap, Hj, Hf.
Qed.

Section row_writers.
(** A loop body that writes back one selected object: [write t q] are the
    values flushed for [q] when the body starts at clock reading [t], and
    the body takes [ticks] readings. *)
Variable write : nat → Question → Question.
Variable ticks : nat.
Variable body : Question → Repo unit.

Hypothesis write_id : ∀ t q, Live.id (write t q) = Live.id q.
Hypothesis body_writes : ∀ q s,
  body q s
  = (tt, {| prompt_trigger_questions :=
              update_row (write (clock s) q) (prompt_trigger_questions s);
            prompt_trigger_questions_history := prompt_trigger_questions_history s;
            next_question_id := next_question_id s;
            next_history_id := next_history_id s;
            clock := (ticks + clock s)%nat |}).

Lemma for_each_writes (selected : list Question) (s : Session) :
  Forall2 (written write ticks selected (clock s))
    (prompt_trigger_questions s)
    (prompt_trigger_questions (for_each selected body s).2)
  ∧ prompt_trigger_questions_history (for_each selected body s).2
    = prompt_trigger_questions_history s
  ∧ next_question_id (for_each selected body s).2 = next_question_id s
  ∧ next_history_id (for_each selected body s).2 = next_history_id s
  ∧ clock (for_each selected body s).2 = (clock s + ticks * length selected)%nat.
Proof.
  revert s. induction selected as [|q rest IH]; intros s.
  - simpl. split; [|split; [done|split; [done|split; [done|lia]]]].
    apply Forall_Forall2_diag, Forall_forall. intros r _. left.
    split; [|done]. simpl. apply not_elem_of_nil.
  - simpl. unfold bind. rewrite body_writes.
    match goal with |- context [for_each rest body ?s1] =>
      destruct (IH s1) as (Hrows & Hhist & Hnq & Hnh & Hclock) end.
    simpl in *. split; [|split; [done|split; [done|split; [done|lia]]]].
    unfold update_row in Hrows.
    apply (proj1 (Forall2_fmap_l
             (λ r : Question,
                if bool_decide (Live.id r = Live.id (write (clock s) q))
                then write (clock s) q else r) _ _ _)) in Hrows.
    eapply Forall2_impl; [exact Hrows|]. clear Hrows.
    intros r r' Hw. unfold compose in Hw. rewrite write_id in Hw.
    unfold written in *. simpl length.
    destruct (decide (Live.id r = Live.id q)) as [Heq|Hne].
    + rewrite (bool_decide_eq_true_2 _ Heq) in Hw.
      destruct Hw as [[Hfresh ->]|(q' & i & Hq' & Hid & Hi & ->)]; right.
      * exists q, 0%nat. split; [apply elem_of_cons; by left|].
        split; [done|]. split; [lia|]. f_equal. lia.
      * exists q', (S i). split; [apply elem_of_cons; by right|].
        rewrite write_id in Hid.
        split; [congruence|]. split; [lia|]. f_equal. lia.
    + rewrite (bool_decide_eq_false_2 _ Hne) in Hw.
      destruct Hw as [[Hfresh ->]|(q' & i & Hq' & Hid & Hi & ->)].
      * left. split; [|done]. rewrite fmap_cons.
        apply not_elem_of_cons. split; [done|exact Hfresh].
      * right. exists q', (S i). split; [apply elem_of_cons; by right|].
        split; [done|]. split; [lia|]. f_equal. lia.
Qed.

End row_writers.

(** Deleting every selected question removes exactly the rows and the
    history rows that carry one of the selected keys. *)
Lemma for_each_delete_row (selected : list Question) (s : Session) :
  prompt_trigger_questions (for_each selected delete_row s).2
  = filter (λ r, Live.id r ∉ Live.id <$> selected) (prompt_trigger_questions s)
  ∧ prompt_trigger_questions_history (for_each selected delete_row s).2
    = filter (λ h, Hist.question_id h ∉ Live.id <$> selected)
             (prompt_trigger_questions_history s)
  ∧ next_question_id (for_each selected delete_row s).2 = next_question_id s
  ∧ next_history_id (for_each selected delete_row s).2 = next_history_id s
  ∧ clock (for_each selected delete_row s).2 = clock s.
Proof.
  revert s. induction selected as [|q rest IH]; intros s.
  - simpl. repeat split; symmetry; apply filter_keep_all;
      intros; apply not_elem_of_nil.
  - simpl. unfold bind. simpl.
    match goal with |- context [for_each rest delete_row ?s1] =>
      destruct (IH s1) as (Hrows & Hhist & Hnq & Hnh & Hclock) end.
    simpl in *. rewrite Hrows, Hhist, !list_filter_filter.
    repeat split; try done; apply list_filter_iff; intros x;
      rewrite not_elem_of_cons; tauto.
Qed.

Lemma Forall2_elem_of_l {A B : Type} (P : A → B → Prop) (l : list A) (k : list B) :
  Forall2 P l k → Forall2 (λ x y, x ∈ l ∧ P x y) l k.
Proof.
  rewrite !Forall2_same_length_lookup. intros [Hlen HP]. split; [done|].
  intros i x y Hx Hy. split; [|by eapply HP].
  apply list_elem_of_lookup. eauto.
Qed.

(** ** Listing and the group-level bulk operations *)

Section group_operations.
Variable utcnow_at : nat → datetime.
Variable collate : string → string → comparison.

(** The rows [get_all_questions] returns are the rows passing its filter. *)
Lemma get_all_questions_selects source_shorthand group_name include_inactive s :
  (get_all_questions collate source_shorthand group_name include_inactive s).1
  ≡ₚ filter (λ q, question_filter source_shorthand group_name include_inactive q
                  = true)
            (prompt_trigger_questions s)
  ∧ (get_all_questions collate source_shorthand group_name include_inactive s).2 = s.
Proof. split; [apply merge_sort_Permutation | done]. Qed.

Lemma question_filter_group (old_name : string) (q : Question) :
  old_name ≠ ""%string →
  question_filter None (Some old_name) true q = true ↔ Live.group_name q = old_name.
Proof.
  intros Hne. unfold question_filter, truthy. simpl.
  rewrite (bool_decide_eq_false_2 _ Hne). simpl.
  rewrite bool_decide_eq_true. split; congruence.
Qed.

Lemma question_filter_empty_group (q : Question) :
  question_filter None (Some ""%string) true q = true.
Proof. reflexivity. Qed.

Lemma rename_group_loop old_name new_name updated_by s :
  rename_group utcnow_at collate old_name new_name updated_by s
  = (count_rows (get_all_questions collate None (Some old_name) true s).1,
     (for_each (get_all_questions collate None (Some old_name) true s).1
        (λ question,
           updated_at <- utcnow utcnow_at ;;
           flush_question
             (set_updated_by (Some updated_by)
                (set_updated_at updated_at (set_group_name new_name question))))
        s).2).
Proof.
  unfold rename_group, bind at 1. simpl.
  unfold bind at 1. by destruct (for_each _ _ s) as [[] s'].
Qed.

Lemma rename_group_writes old_name new_name updated_by s :
  Forall2 (written (renamed utcnow_at new_name updated_by) 1
             (get_all_questions collate None (Some old_name) true s).1 (clock s))
    (prompt_trigger_questions s)
    (prompt_trigger_questions
       (rename_group utcnow_at collate old_name new_name updated_by s).2)
  ∧ prompt_trigger_questions_history
      (rename_group utcnow_at collate old_name new_name updated_by s).2
    = prompt_trigger_questions_history s
  ∧ clock (rename_group utcnow_at collate old_name new_name updated_by s).2
    = (clock s
       + length (get_all_questions collate None (Some old_name) true s).1)%nat.
Proof.
  rewrite rename_group_loop. cbn [snd].
  match goal with |- context [for_each ?sel ?body s] =>
    destruct (for_each_writes (renamed utcnow_at new_name updated_by) 1 body
                (λ _ _, eq_refl) (λ _ _, eq_refl) sel s)
      as (Hrows & Hhist & _ & _ & Hclock) end.
  split; [exact Hrows|]. split; [exact Hhist|]. rewrite Hclock. lia.
Qed.

(** C7.  Renaming a group with a non-empty old name, in a store with unique
    primary keys: the rows of the old group, active or not, get the new
    group name and a new update stamp and keep every other field, the
    version included; all other rows and the whole history table are left
    as they were; the count returned is the number of rows of the old
    group. *)
Theorem rename_group_correct s old_name new_name updated_by :
  old_name ≠ ""%string →
  NoDup (Live.id <$> prompt_trigger_questions s) →
  ∃ s',
    rename_group utcnow_at collate old_name new_name updated_by s
    = (count_rows (filter (λ q, Live.group_name q = old_name)
                          (prompt_trigger_questions s)), s')
    ∧ Forall2
        (λ q q',
           if bool_decide (Live.group_name q = old_name)
           then Live.version q' = Live.version q
                ∧ ∃ t, (clock s ≤ t < clock s')%nat
                       ∧ q' = {| Live.id := Live.id q;
                                 Live.question_text := Live.question_text q;
                                 Live.group_name := new_name;
                                 Live.source_shorthand := Live.source_shorthand q;
                                 Live.version := Live.version q;
                                 Live.is_active := Live.is_active q;
                                 Live.created_at := Live.created_at q;
                                 Live.created_by := Live.created_by q;
                                 Live.updated_at := utcnow_at t;
                                 Live.updated_by := Some updated_by |}
           else q' = q)
        (prompt_trigger_questions s) (prompt_trigger_questions s')
    ∧ prompt_trigger_questions_history s' = prompt_trigger_questions_history s.
Proof.
  intros Hne Hpk.
  destruct (get_all_questions_selects None (Some old_name) true s) as [Hsel _].
  destruct (rename_group_writes old_name new_name updated_by s)
    as (Hrows & Hhist & Hclock).
  exists (rename_group utcnow_at collate old_name new_name updated_by s).2.
  split; [|split; [|exact Hhist]].
  - rewrite rename_group_loop. cbn [snd]. f_equal. unfold count_rows.
    rewrite Hsel. f_equal. f_equal. apply list_filter_iff. intros q.
    by apply question_filter_group.
  - rewrite Hclock. apply Forall2_elem_of_l in Hrows.
    eapply Forall2_impl; [exact Hrows|]. clear Hrows.
    intros r r' [Hr Hw].
    assert (∀ q, q ∈ (get_all_questions collate None (Some old_name) true s).1
                 ↔ q ∈ prompt_trigger_questions s ∧ Live.group_name q = old_name)
      as Hmem.
    { intros q. rewrite Hsel, list_elem_of_filter, question_filter_group by done.
      tauto. }
    case_bool_decide as Hgroup.
    + destruct Hw as [[Hfresh _]|(q & i & Hq & Hid & Hi & ->)].
      * destruct Hfresh. apply list_elem_of_fmap. exists r. split; [done|].
        by apply Hmem.
      * apply Hmem in Hq as [Hq _].
        assert (q = r) as -> by by eapply NoDup_fmap_elem_eq.
        split; [done|]. exists (clock s + 1 * i)%nat. split; [lia | done].
    + destruct Hw as [[_ ->]|(q & i & Hq & Hid & Hi & ->)]; [done|].
      apply Hmem in Hq as [Hq Hqg].
      assert (q = r) as -> by by eapply NoDup_fmap_elem_eq.
      done.
Qed.

Lemma delete_group_loop group_name delete_questions s :
  delete_group collate group_name delete_questions s
  = (count_rows (get_all_questions collate None (Some group_name) true s).1,
     (for_each (get_all_questions collate None (Some group_name) true s).1
        (if delete_questions then delete_row
         else λ question, flush_question (set_group_name "Ungrouped" question))
        s).2).
Proof.
  unfold delete_group, bind at 1. simpl.
  unfold bind at 1. destruct delete_questions.
  - by destruct (for_each _ _ s) as [[] s'].
  - by destruct (for_each _ _ s) as [[] s'].
Qed.

(** With the empty string as group filter every row is selected. *)
Lemma get_all_questions_empty_group s :
  (get_all_questions collate None (Some ""%string) true s).1
  ≡ₚ prompt_trigger_questions s.
Proof.
  destruct (get_all_questions_selects None (Some ""%string) true s) as [-> _].
  by rewrite (filter_keep_all _ _ question_filter_empty_group).
Qed.

(** C9.  An empty-string filter of [get_all_questions] is dropped, not
    matched: the call is the one without that filter.  Hence [rename_group]
    with the empty old name and [delete_group] with the empty group name
    select every row of the table: the count returned is the size of the
    table, and afterwards every row carries the new group name (rename),
    no row is left (delete with [delete_questions]), or every row is in
    group ["Ungrouped"] (delete without). *)
Theorem empty_string_filter_selects_all s source_shorthand group_name
    include_inactive new_name updated_by :
  get_all_questions collate source_shorthand (Some ""%string) include_inactive s
  = get_all_questions collate source_shorthand None include_inactive s
  ∧ get_all_questions collate (Some ""%string) group_name include_inactive s
    = get_all_questions collate None group_name include_inactive s
  ∧ (rename_group utcnow_at collate "" new_name updated_by s).1
    = count_rows (prompt_trigger_questions s)
  ∧ length (prompt_trigger_questions
              (rename_group utcnow_at collate "" new_name updated_by s).2)
    = length (prompt_trigger_questions s)
  ∧ Forall (λ q, Live.group_name q = new_name ∧ Live.updated_by q = Some updated_by)
      (prompt_trigger_questions
         (rename_group utcnow_at collate "" new_name updated_by s).2)
  ∧ (delete_group collate "" true s).1 = count_rows (prompt_trigger_questions s)
  ∧ prompt_trigger_questions (delete_group collate "" true s).2 = []
  ∧ (delete_group collate "" false s).1 = count_rows (prompt_trigger_questions s)
  ∧ length (prompt_trigger_questions (delete_group collate "" false s).2)
    = length (prompt_trigger_questions s)
  ∧ Forall (λ q, Live.group_name q = "Ungrouped"%string)
      (prompt_trigger_questions (delete_group collate "" false s).2).
Proof.
  pose proof (get_all_questions_empty_group s) as Hsel.
  assert (∀ r, r ∈ prompt_trigger_questions s →
               Live.id r ∈ Live.id <$>
                 (get_all_questions collate None (Some ""%string) true s).1)
    as Hall.
  { intros r Hr. apply list_elem_of_fmap. exists r. split; [done|].
    by rewrite Hsel. }
  split; [reflexivity|]. split; [reflexivity|].
  destruct (rename_group_writes ""%string new_name updated_by s)
    as (Hrows & _ & _).
  split; [|split; [|split]].
  { rewrite rename_group_loop. cbn [fst]. unfold count_rows. by rewrite Hsel. }
  { symmetry. by eapply Forall2_length. }
  { apply Forall2_elem_of_l in Hrows.
    eapply Forall2_Forall_r; [exact Hrows|]. apply Forall_forall.
    intros r Hr r' [_ [[Hfresh _]|(q & i & _ & _ & _ & ->)]]; [|done].
    destruct Hfresh. by apply Hall. }
  rewrite !delete_group_loop. cbn [fst snd].
  split; [unfold count_rows; by rewrite Hsel|]. split.
  { destruct (for_each_delete_row
                (get_all_questions collate None (Some ""%string) true s).1 s)
      as (-> & _).
    apply filter_drop_all. apply Forall_forall. intros r Hr Hfresh.
    by apply Hfresh, Hall. }
  split; [unfold count_rows; by rewrite Hsel|].
  match goal with |- context [for_each ?sel ?body s] =>
    destruct (for_each_writes (λ _, set_group_name "Ungrouped") 0 body
                (λ _ _, eq_refl) (λ _ _, eq_refl) sel s) as (Hrows' & _) end.
  split; [symmetry; by eapply Forall2_length|].
  apply Forall2_elem_of_l in Hrows'.
  eapply Forall2_Forall_r; [exact Hrows'|]. apply Forall_forall.
  intros r Hr r' [_ [[Hfresh _]|(q & i & _ & _ & _ & ->)]]; [|done].
  destruct Hfresh. by apply Hall.
Qed.

End group_operations.

(** ** Every repository method keeps the store invariant *)

Section invariant_preservation.
Variable utcnow_at : nat → datetime.
Variable collate : string → string → comparison.

Lemma wf_store_utcnow s : wf_store s → wf_store (utcnow utcnow_at s).2.
Proof. by apply wf_store_tables. Qed.

(** [create_question] is one [INSERT] after two clock readings. *)
Lemma create_question_inserts question_text group_name source_shorthand
    created_by s :
  create_question utcnow_at question_text group_name source_shorthand created_by s
  = insert_question
      (λ pk, {| Live.id := pk;
                Live.question_text := question_text;
                Live.group_name := group_name;
                Live.source_shorthand := source_shorthand;
                Live.version := 1;
                Live.is_active := true;
                Live.created_at := utcnow_at (clock s);
                Live.created_by := created_by;
                Live.updated_at := utcnow_at (S (clock s));
                Live.updated_by := created_by |})
      (utcnow utcnow_at (utcnow utcnow_at s).2).2.
Proof. reflexivity. Qed.

Lemma wf_store_create_question question_text group_name source_shorthand
    created_by s :
  wf_store s →
  wf_store (create_question utcnow_at question_text group_name source_shorthand
              created_by s).2.
Proof.
  intros Hwf. rewrite create_question_inserts.
  apply wf_store_insert_question; [done|]. by do 2 apply wf_store_utcnow.
Qed.

Lemma wf_store_update_question_with_history question_id updated_by
    question_text group_name source_shorthand reason s :
  wf_store s →
  wf_store (update_question_with_history utcnow_at question_id updated_by
              question_text group_name source_shorthand reason s).2.
Proof.
  intros Hwf.
  destruct (fst (get_question_by_id question_id s)) as [question|] eqn:Hq.
  - rewrite (update_question_with_history_found _ _ _ _ _ _ _ _ _ Hq).
    apply wf_store_tracked_commit; [|done].
    by apply get_question_by_id_Some in Hq as [? _].
  - by rewrite (update_question_with_history_missing _ _ _ _ _ _ _ _ Hq).
Qed.

Lemma wf_store_toggle_active_status question_id is_active updated_by reason s :
  wf_store s →
  wf_store (toggle_active_status utcnow_at question_id is_active updated_by
              reason s).2.
Proof.
  intros Hwf.
  destruct (fst (get_question_by_id question_id s)) as [question|] eqn:Hq.
  - destruct (decide (Live.is_active question = is_active)) as [Heq|Hne].
    + by rewrite (toggle_active_status_same_status _ _ _ _ _ _ _ Hq Heq).
    + rewrite (toggle_active_status_changed _ _ _ _ _ _ _ Hq Hne).
      apply wf_store_tracked_commit; [|done].
      by apply get_question_by_id_Some in Hq as [? _].
  - unfold toggle_active_status, bind at 1.
    by rewrite (get_question_by_id_pair question_id s), Hq.
Qed.

Lemma wf_store_restore_question_version question_id history_id restored_by
    reason s :
  wf_store s →
  wf_store (restore_question_version utcnow_at question_id history_id
              restored_by reason s).2.
Proof.
  intros Hwf.
  destruct (fst (get_history_entry history_id s)) as [history_entry|] eqn:Hh.
  - destruct (decide (Hist.question_id history_entry = question_id)) as [Hid|Hid].
    + rewrite (restore_question_version_delegates _ _ _ _ _ _ _ Hh Hid).
      by apply wf_store_update_question_with_history.
    + unfold restore_question_version, bind at 1.
      rewrite (get_history_entry_pair history_id s), Hh.
      by rewrite (bool_decide_eq_true_2 _ Hid).
  - unfold restore_question_version, bind at 1.
    by rewrite (get_history_entry_pair history_id s), Hh.
Qed.

Lemma delete_question_found question_id s question :
  fst (get_question_by_id question_id s) = Some question →
  delete_question question_id s = (true, (delete_row question s).2).
Proof.
  intros Hq. unfold delete_question, bind at 1.
  by rewrite (get_question_by_id_pair question_id s), Hq.
Qed.

Lemma delete_question_missing question_id s :
  fst (get_question_by_id question_id s) = None →
  delete_question question_id s = (false, s).
Proof.
  intros Hq. unfold delete_question, bind at 1.
  by rewrite (get_question_by_id_pair question_id s), Hq.
Qed.

Lemma wf_store_delete_question question_id s :
  wf_store s → wf_store (delete_question question_id s).2.
Proof.
  intros Hwf.
  destruct (fst (get_question_by_id question_id s)) as [question|] eqn:Hq.
  - rewrite (delete_question_found _ _ _ Hq). by apply wf_store_delete_row.
  - by rewrite (delete_question_missing _ _ Hq).
Qed.

Lemma wf_store_rename_group old_name new_name updated_by s :
  wf_store s →
  wf_store (rename_group utcnow_at collate old_name new_name updated_by s).2.
Proof.
  intros Hwf. rewrite rename_group_loop. cbn [snd].
  apply (for_each_invariant wf_store); [|done].
  intros q s1 Hs1. unfold bind, utcnow. cbv beta iota.
  apply wf_store_flush_question. by apply (wf_store_tables s1).
Qed.

Lemma wf_store_delete_group group_name delete_questions s :
  wf_store s → wf_store (delete_group collate group_name delete_questions s).2.
Proof.
  intros Hwf. rewrite delete_group_loop. cbn [snd].
  apply (for_each_invariant wf_store); [|done].
  intros q s1 Hs1. destruct delete_questions.
  - by apply wf_store_delete_row.
  - by apply wf_store_flush_question.
Qed.

(** Deleting a question leaves none of its history rows behind. *)
Lemma delete_question_cascades question_id s :
  (delete_question question_id s).1 = true →
  filter (λ h, Hist.question_id h = question_id)
         (prompt_trigger_questions_history (delete_question question_id s).2)
  = [].
Proof.
  destruct (fst (get_question_by_id question_id s)) as [question|] eqn:Hq.
  - rewrite (delete_question_found _ _ _ Hq). intros _.
    apply get_question_by_id_Some in Hq as [_ Hid].
    apply filter_drop_all, Forall_forall. intros h Hh. simpl in Hh.
    apply list_elem_of_filter in Hh as [Hne _]. congruence.
  - by rewrite (delete_question_missing _ _ Hq).
Qed.

End invariant_preservation.

(** ** Version and history bookkeeping over sequences of mutations *)

Section tracked_mutations.
Variable utcnow_at : nat → datetime.

Lemma history_of_tracked_commit question_id s entry updated :
  Hist.question_id entry = question_id →
  history_of question_id (tracked_commit s entry updated)
  = history_of question_id s ++ [entry].
Proof.
  intros Hid. unfold history_of. simpl.
  by rewrite filter_app, filter_cons, decide_True.
Qed.

(** A tracked mutation of a live question commits one snapshot of it and
    rewrites it with the version bumped. *)
Lemma tracked_mutation_commits question_id m s live :
  (get_question_by_id question_id s).1 = Some live →
  tracked question_id m s = true →
  ∃ question_text group_name source_shorthand is_active updated_by reason,
    apply_mutation utcnow_at question_id m s
    = (Some (rewritten live question_text group_name source_shorthand is_active
               (utcnow_at (S (clock s))) updated_by),
       tracked_commit s
         (snapshot live (utcnow_at (clock s)) updated_by reason (next_history_id s))
         (rewritten live question_text group_name source_shorthand is_active
            (utcnow_at (S (clock s))) updated_by)).
Proof.
  intros Hlive Htracked.
  destruct m as [by_ qt gn ss reason|act by_ reason|hid by_ reason];
    unfold tracked in Htracked; unfold apply_mutation.
  - exists qt, gn, ss, (Live.is_active live), by_, reason.
    by apply update_question_with_history_found.
  - rewrite Hlive in Htracked.
    apply negb_true_iff, bool_decide_eq_false in Htracked.
    eexists None, None, None, act, by_, _.
    by apply toggle_active_status_changed.
  - destruct (get_history_entry hid s).1 as [history_entry|] eqn:Hh; [|done].
    apply bool_decide_eq_true in Htracked.
    eexists _, _, _, (Live.is_active live), by_, _.
    rewrite (restore_question_version_delegates _ _ _ _ _ _ _ Hh Htracked).
    by apply update_question_with_history_found.
Qed.

(** One tracked mutation: the version goes up by one and the replaced
    version number is appended to the question's history. *)
Lemma tracked_mutation_step question_id m s live :
  (get_question_by_id question_id s).1 = Some live →
  tracked question_id m s = true →
  ∃ live',
    (get_question_by_id question_id (apply_mutation utcnow_at question_id m s).2).1
    = Some live'
    ∧ Live.version live' = Live.version live + 1
    ∧ Hist.version <$> history_of question_id (apply_mutation utcnow_at question_id m s).2
      = (Hist.version <$> history_of question_id s) ++ [Live.version live].
Proof.
  intros Hlive Htracked.
  destruct (tracked_mutation_commits _ _ _ _ Hlive Htracked)
    as (qt & gn & ss & act & by_ & reason & ->).
  eexists. cbn [snd]. split; [|split].
  - by rewrite (tracked_commit_lookup_rewritten _ _ _ _ _ _ _ _ _ _ Hlive).
  - done.
  - rewrite history_of_tracked_commit, fmap_app; [done|].
    by apply get_question_by_id_Some in Hlive as [_ ?].
Qed.

Lemma apply_mutations_cons question_id m ms s :
  (apply_mutations utcnow_at question_id (m :: ms) s).2
  = (apply_mutations utcnow_at question_id ms (apply_mutation utcnow_at question_id m s).2).2.
Proof.
  unfold apply_mutations. simpl. unfold bind.
  by destruct (apply_mutation utcnow_at question_id m s) as [r s1].
Qed.

Lemma tracked_mutations_run question_id ms s live (n : nat) :
  (get_question_by_id question_id s).1 = Some live →
  Live.version live = Z.of_nat n + 1 →
  Hist.version <$> history_of question_id s = seqZ 1 (Z.of_nat n) →
  all_tracked utcnow_at question_id ms s →
  ∃ live',
    (get_question_by_id question_id (apply_mutations utcnow_at question_id ms s).2).1
    = Some live'
    ∧ Live.version live' = Z.of_nat (n + length ms) + 1
    ∧ Hist.version <$> history_of question_id (apply_mutations utcnow_at question_id ms s).2
      = seqZ 1 (Z.of_nat (n + length ms)).
Proof.
  revert s live n. induction ms as [|m ms IH]; intros s live n Hlive Hv Hh Hall.
  - exists live. simpl. rewrite Nat.add_0_r. eauto.
  - destruct Hall as [Htracked Hall].
    destruct (tracked_mutation_step _ _ _ _ Hlive Htracked)
      as (live1 & Hlive1 & Hv1 & Hh1).
    destruct (IH (apply_mutation utcnow_at question_id m s).2 live1 (S n))
      as (live' & Hlive' & Hv' & Hh'); [done | lia | | done |].
    + rewrite Hh1, Hh, Hv, seqZ_S. do 2 f_equal. lia.
    + exists live'. rewrite apply_mutations_cons. simpl length.
      replace (n + S (length ms))%nat with (S n + length ms)%nat by lia.
      eauto.
Qed.

(** [get_question_history] lists the history rows of the question. *)
Lemma get_question_history_rows question_id s :
  (get_question_history question_id s).1 ≡ₚ history_of question_id s.
Proof.
  unfold get_question_history, bind, select_history, ret, history_of. simpl.
  rewrite merge_sort_Permutation.
  erewrite list_filter_iff; [done|]. intros h. apply bool_decide_eq_true.
Qed.

Lemma seqZ_sorted (n : nat) (m : Z) : Sorted Z.le (seqZ m (Z.of_nat n)).
Proof.
  revert m. induction n as [|n IH]; intros m; [constructor|].
  rewrite seqZ_cons by lia.
  replace (Z.pred (Z.of_nat (S n))) with (Z.of_nat n) by lia.
  constructor; [apply IH|].
  destruct n as [|n]; [constructor|].
  rewrite seqZ_cons by lia. constructor. lia.
Qed.

Lemma Sorted_fmap_inv {A B : Type} (f : A → B) (R : relation B) (l : list A) :
  Sorted R (f <$> l) → Sorted (λ x y, R (f x) (f y)) l.
Proof.
  induction l as [|x l IH]; [constructor|].
  rewrite fmap_cons. intros Hs. apply Sorted_inv in Hs as [Hs Hhd].
  constructor; [by apply IH|].
  destruct l as [|y l]; [constructor|].
  rewrite fmap_cons in Hhd. apply HdRel_inv in Hhd. by constructor.
Qed.

#[local] Instance order_by_version_desc_transitive :
  Transitive order_by_version_desc.
Proof. intros h1 h2 h3. unfold order_by_version_desc. lia. Qed.

#[local] Instance order_by_version_desc_total : Total order_by_version_desc.
Proof. intros h1 h2. unfold order_by_version_desc. lia. Qed.

(** When the versions of a question's history rows are [1, ..., n] in
    insertion order, [get_question_history] lists them newest first. *)
Lemma get_question_history_newest_first question_id s (n : nat) :
  Hist.version <$> history_of question_id s = seqZ 1 (Z.of_nat n) →
  (get_question_history question_id s).1 = reverse (history_of question_id s).
Proof.
  intros Hversions.
  assert (NoDup (Hist.version <$> history_of question_id s)) as Hnd.
  { rewrite Hversions. apply NoDup_seqZ. }
  apply (Sorted_unique_strong order_by_version_desc).
  - intros h1 h2 Hh1 Hh2 H12 H21.
    rewrite get_question_history_rows in Hh1. rewrite elem_of_reverse in Hh2.
    apply (NoDup_fmap_elem_eq Hist.version _ _ _ Hnd Hh1 Hh2).
    unfold order_by_version_desc in *. lia.
  - unfold get_question_history, bind, select_history, ret. simpl.
    apply Sorted_merge_sort, _.
  - apply (Sorted_reverse (λ h1 h2, Hist.version h1 ≤ Hist.version h2)).
    apply (Sorted_fmap_inv Hist.version Z.le). rewrite Hversions.
    apply seqZ_sorted.
  - rewrite get_question_history_rows. by rewrite reverse_Permutation.
Qed.

(** The store right after [create_question]: the new question is found by
    its key and has no history. *)
Lemma create_question_fresh question_text group_name source_shorthand
    created_by s q s1 :
  wf_store s →
  create_question utcnow_at question_text group_name source_shorthand created_by s
  = (q, s1) →
  (get_question_by_id (Live.id q) s1).1 = Some q
  ∧ Live.version q = 1
  ∧ history_of (Live.id q) s1 = [].
Proof.
  intros [Hq Hh Hqi Hhi Hfk]. rewrite create_question_inserts.
  unfold insert_question. intros [= <- <-]. cbn [Live.id Live.version].
  split; [|split; [done|]].
  - unfold get_question_by_id, bind, select_questions, ret. simpl.
    rewrite filter_app, (filter_drop_all _ (prompt_trigger_questions s)).
    + rewrite app_nil_l, filter_cons, decide_True; [done|].
      by apply bool_decide_eq_true.
    + rewrite Forall_forall in Hqi |- *. intros r Hr Hid%bool_decide_eq_true.
      specialize (Hqi r Hr). simpl in Hid. lia.
  - unfold history_of. simpl. apply filter_drop_all.
    unfold referential_integrity in Hfk.
    rewrite Forall_forall in Hfk. rewrite Forall_forall in Hqi.
    apply Forall_forall. intros h Hin Hid. specialize (Hfk h Hin).
    apply list_elem_of_fmap in Hfk as (r & Hr & Hrin).
    specialize (Hqi r Hrin). simpl in Hid. lia.
Qed.

(** C2.  Starting from a freshly created question (version 1, no history)
    in a well-formed store, after any sequence of [N] tracked mutations
    (edits, effective toggles, restores) the live version is [N + 1], the
    question has exactly [N] history rows, their versions are [1, ..., N]
    in order of insertion ([N, ..., 1] as [get_question_history] lists
    them), so exactly the set [{1, ..., N}] without gaps, and each is below
    the live version. *)
Theorem tracked_mutations_version_history s question_text group_name
    source_shorthand created_by q s1 ms :
  wf_store s →
  create_question utcnow_at question_text group_name source_shorthand created_by s
  = (q, s1) →
  all_tracked utcnow_at (Live.id q) ms s1 →
  Live.version q = 1
  ∧ history_of (Live.id q) s1 = []
  ∧ ∃ live,
      (get_question_by_id (Live.id q) (apply_mutations utcnow_at (Live.id q) ms s1).2).1
      = Some live
      ∧ Live.version live = Z.of_nat (length ms) + 1
      ∧ length (history_of (Live.id q) (apply_mutations utcnow_at (Live.id q) ms s1).2)
        = length ms
      ∧ Hist.version
          <$> history_of (Live.id q) (apply_mutations utcnow_at (Live.id q) ms s1).2
        = seqZ 1 (Z.of_nat (length ms))
      ∧ Hist.version
          <$> (get_question_history (Live.id q)
                 (apply_mutations utcnow_at (Live.id q) ms s1).2).1
        = reverse (seqZ 1 (Z.of_nat (length ms)))
      ∧ (∀ v, (∃ h, h ∈ history_of (Live.id q)
                           (apply_mutations utcnow_at (Live.id q) ms s1).2
                    ∧ Hist.version h = v)
              ↔ 1 ≤ v ≤ Z.of_nat (length ms))
      ∧ NoDup (Hist.version
                 <$> history_of (Live.id q) (apply_mutations utcnow_at (Live.id q) ms s1).2)
      ∧ Forall (λ h, Hist.version h < Live.version live)
          (history_of (Live.id q) (apply_mutations utcnow_at (Live.id q) ms s1).2).
Proof.
  intros Hwf Hcreate Hall.
  destruct (create_question_fresh _ _ _ _ _ _ _ Hwf Hcreate)
    as (Hlive & Hv & Hh).
  split; [done|]. split; [done|].
  destruct (tracked_mutations_run (Live.id q) ms s1 q 0 Hlive)
    as (live & Hlive' & Hv' & Hh'); [lia | by rewrite Hh | done |].
  simpl in Hv', Hh'. exists live.
  assert (∀ v, (∃ h, h ∈ history_of (Live.id q)
                          (apply_mutations utcnow_at (Live.id q) ms s1).2
                     ∧ Hist.version h = v)
               ↔ 1 ≤ v ≤ Z.of_nat (length ms)) as Hset.
  { intros v. transitivity (v ∈ seqZ 1 (Z.of_nat (length ms))).
    - rewrite <- Hh', list_elem_of_fmap.
      split; intros (h & ? & ?); exists h; by split.
    - rewrite elem_of_seqZ. lia. }
  split; [done|]. split; [done|]. split.
  { rewrite <- (length_fmap Hist.version), Hh', length_seqZ. lia. }
  split; [done|]. split.
  { rewrite (get_question_history_newest_first _ _ _ Hh').
    by rewrite fmap_reverse, Hh'. }
  split; [done|]. split.
  { rewrite Hh'. apply NoDup_seqZ. }
  apply Forall_forall. intros h Hin.
  assert (1 ≤ Hist.version h ≤ Z.of_nat (length ms)) by (apply Hset; eauto).
  lia.
Qed.

End tracked_mutations.

(** ** Listings *)

Lemma filter_length_pos {A : Type} (P : A → Prop) `{!∀ x, Decision (P x)}
    (l : list A) :
  0 < Z.of_nat (length (filter P l)) ↔ ∃ x, x ∈ l ∧ P x.
Proof.
  split.
  - destruct (filter P l) as [|x k] eqn:Hf; [simpl; lia|]. intros _.
    assert (x ∈ filter P l) as Hx by (rewrite Hf; left).
    apply list_elem_of_filter in Hx. exists x. tauto.
  - intros (x & Hx & HP).
    assert (x ∈ filter P l) as Hin by by apply list_elem_of_filter.
    destruct (filter P l); [by apply elem_of_nil in Hin | simpl; lia].
Qed.

Lemma filter_length_or {A : Type} (P R : A → Prop) `{!∀ x, Decision (P x)}
    `{!∀ x, Decision (R x)} (l : list A) :
  (∀ x, P x → R x → False) →
  length (filter (λ x, P x ∨ R x) l)
  = (length (filter P l) + length (filter R l))%nat.
Proof.
  intros Hdisjoint. induction l as [|a l IH]; [done|].
  rewrite !filter_cons.
  destruct (decide (P a)) as [HP|HP]; destruct (decide (R a)) as [HR|HR].
  - destruct (Hdisjoint a HP HR).
  - rewrite decide_True by tauto. simpl. lia.
  - rewrite decide_True by tauto. simpl. lia.
  - rewrite decide_False by tauto. lia.
Qed.

Lemma sum_counts_Permutation (rows rows' : list (string * Z)) :
  rows ≡ₚ rows' → sum_counts rows = sum_counts rows'.
Proof.
  unfold sum_counts. induction 1; simpl; lia.
Qed.

(** The counts of a grouped count add up to the number of rows grouped. *)
Lemma sum_counts_over_keys (key : Question → string) (rows : list Question)
    (keys : list string) :
  NoDup keys →
  sum_counts ((λ k, (k, Z.of_nat (length (filter (λ q, key q = k) rows))))
                <$> keys)
  = Z.of_nat (length (filter (λ q, key q ∈ keys) rows)).
Proof.
  induction 1 as [|k keys Hfresh Hnd IH].
  - rewrite filter_drop_all; [done|]. apply Forall_forall.
    intros q _. apply not_elem_of_nil.
  - rewrite fmap_cons.
    change (sum_counts (?row :: ?rest)) with (row.2 + sum_counts rest).
    rewrite IH. cbn [snd].
    rewrite (list_filter_iff (λ q, key q ∈ k :: keys)
               (λ q, key q = k ∨ key q ∈ keys))
      by (intros q; apply elem_of_cons).
    rewrite filter_length_or; [lia|]. intros q -> Hin. by apply Hfresh.
Qed.

Lemma sum_counts_group_by_count (key : Question → string) (rows : list Question) :
  sum_counts (group_by_count key rows) = count_rows rows.
Proof.
  unfold group_by_count, count_rows.
  rewrite sum_counts_over_keys by apply NoDup_remove_dups.
  rewrite filter_keep_all_in; [done|]. intros q Hq.
  apply elem_of_remove_dups, list_elem_of_fmap. eauto.
Qed.

(** A row [(k, n)] of a grouped count: [n] rows carry [k], and [n > 0]. *)
Lemma group_by_count_row (key : Question → string) (rows : list Question)
    (k : string) (n : Z) :
  (k, n) ∈ group_by_count key rows
  ↔ 0 < n ∧ n = count_rows (filter (λ q, key q = k) rows).
Proof.
  unfold group_by_count, count_rows. rewrite list_elem_of_fmap. split.
  - intros (k' & [= -> ->] & Hk). split; [|done].
    apply elem_of_remove_dups, list_elem_of_fmap in Hk as (q & -> & Hq).
    apply filter_length_pos. eauto.
  - intros [Hpos ->]. exists k. split; [done|].
    apply filter_length_pos in Hpos as (q & Hq & <-).
    apply elem_of_remove_dups, list_elem_of_fmap. eauto.
Qed.

(** A key of the dict built from a grouped count maps to the number of
    rows carrying it, and only keys carried by some row are present. *)
Lemma dict_of_group_by_count_lookup_iff (key : Question → string)
    (rows : list Question) (k : string) (n : Z) :
  dict_of_rows (group_by_count key rows) !! k = Some n
  ↔ 0 < n ∧ n = count_rows (filter (λ q, key q = k) rows).
Proof.
  destruct (decide (k ∈ key <$> rows)) as [Hk|Hk].
  - apply list_elem_of_fmap in Hk as (q & -> & Hq).
    rewrite (dict_of_group_by_count_lookup key rows q Hq). split.
    + intros [= <-]. split; [|done]. apply filter_length_pos. eauto.
    + by intros [_ ->].
  - split.
    + intros Hlookup.
      assert (k ∈ dom (dict_of_rows (group_by_count key rows))) as Hdom
        by (apply elem_of_dom; eauto).
      rewrite dict_of_rows_dom, group_by_count_keys in Hdom.
      rewrite elem_of_list_to_set, elem_of_remove_dups in Hdom.
      by destruct Hk.
    + intros [Hpos ->]. apply filter_length_pos in Hpos as (q & Hq & <-).
      destruct Hk. apply list_elem_of_fmap. eauto.
Qed.

Section listings.
Variable utcnow_at : nat → datetime.
Variable collate : string → string → comparison.

(** A collation compares both ways consistently. *)
Hypothesis collate_antisym : ∀ a b, collate b a = CompOpp (collate a b).

Lemma order_by_group_name_id_total : Total (order_by_group_name_id collate).
Proof.
  intros q1 q2. unfold order_by_group_name_id.
  rewrite (collate_antisym (Live.group_name q1) (Live.group_name q2)).
  destruct (collate (Live.group_name q1) (Live.group_name q2)); simpl;
    [lia | by left | by right].
Qed.

Lemma order_by_group_name_total : Total (order_by_group_name collate).
Proof.
  intros r1 r2. unfold order_by_group_name.
  rewrite (collate_antisym r1.1 r2.1).
  destruct (collate r1.1 r2.1); simpl; [by left | by left | by right].
Qed.

(** X8.  [get_all_questions] returns exactly the rows that pass every
    filter that is in force: the active ones unless [include_inactive],
    those of the given source if a non-empty one is given, those of the
    given group if a non-empty one is given.  Each such row comes once per
    occurrence in the table, in the order of [(group_name, id)], and the
    store is only read. *)
Theorem get_all_questions_correct s source_shorthand group_name include_inactive :
  (∀ q, q ∈ (get_all_questions collate source_shorthand group_name
               include_inactive s).1
        ↔ q ∈ prompt_trigger_questions s
          ∧ (include_inactive = false → Live.is_active q = true)
          ∧ (∀ source, source_shorthand = Some source → source ≠ ""%string →
               Live.source_shorthand q = source)
          ∧ (∀ group, group_name = Some group → group ≠ ""%string →
               Live.group_name q = group))
  ∧ (get_all_questions collate source_shorthand group_name include_inactive s).1
    ≡ₚ filter (λ q, question_filter source_shorthand group_name
                      include_inactive q = true)
              (prompt_trigger_questions s)
  ∧ Sorted (order_by_group_name_id collate)
      (get_all_questions collate source_shorthand group_name include_inactive s).1
  ∧ (get_all_questions collate source_shorthand group_name include_inactive s).2
    = s.
Proof.
  destruct (get_all_questions_selects collate source_shorthand group_name
              include_inactive s) as [Hsel Hs].
  split; [|split; [exact Hsel|split; [|exact Hs]]].
  - intros q. rewrite Hsel, list_elem_of_filter.
    unfold question_filter, truthy.
    rewrite !andb_true_iff. split.
    + intros [[[Hactive Hsource] Hgroup] Hq]. split; [done|]. split; [|split].
      * intros ->. exact Hactive.
      * intros source -> Hne. rewrite (bool_decide_eq_false_2 _ Hne) in Hsource.
        simpl in Hsource. apply bool_decide_eq_true in Hsource. congruence.
      * intros group -> Hne. rewrite (bool_decide_eq_false_2 _ Hne) in Hgroup.
        simpl in Hgroup. apply bool_decide_eq_true in Hgroup. congruence.
    + intros (Hq & Hactive & Hsource & Hgroup). split; [|done].
      split; [split|].
      * destruct include_inactive; [done|]. by apply Hactive.
      * destruct source_shorthand as [source|]; [|done].
        case_bool_decide as Hne; [done|]. simpl.
        apply bool_decide_eq_true. f_equal. by apply Hsource.
      * destruct group_name as [group|]; [|done].
        case_bool_decide as Hne; [done|]. simpl.
        apply bool_decide_eq_true. f_equal. by apply Hgroup.
  - unfold get_all_questions, bind, select_questions, ret. simpl.
    apply Sorted_merge_sort, order_by_group_name_id_total.
Qed.

(** X9.  [get_all_groups] returns one row per group name that occurs among
    the questions passing the active / source filters, with the number of
    those questions in the group: no name twice, no count of zero, the
    counts adding up to the number of questions that pass, the rows in the
    order of the group names; the store is only read. *)
Theorem get_all_groups_correct s source_shorthand include_inactive :
  NoDup (get_all_groups collate source_shorthand include_inactive s).1.*1
  ∧ (∀ name question_count,
       (name, question_count)
         ∈ (get_all_groups collate source_shorthand include_inactive s).1
       ↔ 0 < question_count
         ∧ question_count
           = count_rows
               (filter (λ q, Live.group_name q = name)
                  (get_all_questions collate source_shorthand None
                     include_inactive s).1))
  ∧ sum_counts (get_all_groups collate source_shorthand include_inactive s).1
    = count_rows (get_all_questions collate source_shorthand None
                    include_inactive s).1
  ∧ Sorted (order_by_group_name collate)
      (get_all_groups collate source_shorthand include_inactive s).1
  ∧ (get_all_groups collate source_shorthand include_inactive s).2 = s.
Proof.
  destruct (get_all_questions_selects collate source_shorthand None
              include_inactive s) as [Hsel _].
  unfold get_all_groups, bind, select_questions, ret. simpl.
  split; [|split; [|split; [|split; [|done]]]].
  - rewrite merge_sort_Permutation, group_by_count_keys.
    apply NoDup_remove_dups.
  - intros name n. rewrite merge_sort_Permutation, group_by_count_row.
    unfold count_rows. by rewrite Hsel.
  - rewrite (sum_counts_Permutation _ _ (merge_sort_Permutation _ _)).
    rewrite sum_counts_group_by_count. unfold count_rows. by rewrite Hsel.
  - apply Sorted_merge_sort, order_by_group_name_total.
Qed.

End listings.

(** X6.  [get_question_history] returns exactly the history rows of the
    given question, each once per occurrence in the table, every row
    followed only by rows of the same or a lower version; for a question
    without history rows the list is empty; the store is only read. *)
Theorem get_question_history_correct s question_id :
  (∀ h, h ∈ (get_question_history question_id s).1
        ↔ h ∈ prompt_trigger_questions_history s
          ∧ Hist.question_id h = question_id)
  ∧ length (get_question_history question_id s).1
    = length (history_of question_id s)
  ∧ StronglySorted (λ newer older, Hist.version older ≤ Hist.version newer)
      (get_question_history question_id s).1
  ∧ (question_id ∉ Hist.question_id <$> prompt_trigger_questions_history s →
     (get_question_history question_id s).1 = [])
  ∧ (get_question_history question_id s).2 = s.
Proof.
  pose proof (get_question_history_rows question_id s) as Hrows.
  split; [|split; [|split; [|split; [|done]]]].
  - intros h. rewrite Hrows. unfold history_of. rewrite list_elem_of_filter. tauto.
  - by rewrite Hrows.
  - unfold get_question_history, bind, select_history, ret. simpl.
    apply StronglySorted_merge_sort;
      [apply order_by_version_desc_transitive
      |apply order_by_version_desc_total].
  - intros Hnone. apply Permutation_nil_r. rewrite Hrows.
    unfold history_of. rewrite filter_drop_all; [done|].
    apply Forall_forall. intros h Hh Hid. apply Hnone, list_elem_of_fmap. eauto.
Qed.

(** X10.  The two dicts of [get_question_stats]: a source (a group) is a key
    exactly when some active question has it, and its value is the number
    of active questions having it. *)
Theorem get_question_stats_dicts s key n :
  (questions_by_source (get_question_stats s).1 !! key = Some n
   ↔ 0 < n
     ∧ n = count_rows
             (filter (λ q, Live.source_shorthand q = key)
                (filter (λ q, Live.is_active q = true)
                   (prompt_trigger_questions s))))
  ∧ (questions_by_group (get_question_stats s).1 !! key = Some n
     ↔ 0 < n
       ∧ n = count_rows
               (filter (λ q, Live.group_name q = key)
                  (filter (λ q, Live.is_active q = true)
                     (prompt_trigger_questions s)))).
Proof.
  unfold get_question_stats, bind, select_questions, ret. simpl.
  split; apply dict_of_group_by_count_lookup_iff.
Qed.

(** ** Lookups, creation and deletion *)

Section crud.
Variable utcnow_at : nat → datetime.

Lemma lookup_in_table (rows : list Question) (k : Z) (q : Question) :
  NoDup (Live.id <$> rows) → q ∈ rows → Live.id q = k →
  head (filter (λ r, bool_decide (Live.id r = k) = true) rows) = Some q.
Proof.
  intros Hnd Hq Hid.
  destruct (head (filter (λ r, bool_decide (Live.id r = k) = true) rows))
    as [q'|] eqn:Hhead.
  - apply first_filter_Some in Hhead as [Hq' Hid'%bool_decide_eq_true].
    f_equal. eapply NoDup_fmap_elem_eq; eauto. congruence.
  - apply first_filter_None in Hhead. rewrite Forall_forall in Hhead.
    destruct (Hhead q Hq). by apply bool_decide_eq_true.
Qed.

Lemma get_question_by_id_unique s k q :
  NoDup (Live.id <$> prompt_trigger_questions s) →
  (get_question_by_id k s).1 = Some q
  ↔ q ∈ prompt_trigger_questions s ∧ Live.id q = k.
Proof.
  intros Hnd. split; [apply get_question_by_id_Some|].
  intros [Hq Hid]. by apply lookup_in_table.
Qed.

Lemma get_history_entry_None history_id s :
  (get_history_entry history_id s).1 = None
  ↔ history_id ∉ Hist.id <$> prompt_trigger_questions_history s.
Proof.
  unfold get_history_entry, bind, select_history, ret. simpl.
  rewrite first_filter_None, Forall_forall, list_elem_of_fmap. split.
  - intros Hall (h & -> & Hin). apply (Hall h Hin). by apply bool_decide_eq_true.
  - intros Hno h Hin Hid%bool_decide_eq_true. apply Hno. eauto.
Qed.

(** X1.  In a store with unique primary keys, [get_question_by_id] returns
    a question exactly when it is the row of the table with that key, and
    [None] exactly when no row has the key; [get_history_entry] does the
    same on the history table; neither changes the store. *)
Theorem lookups_by_id_correct s k :
  NoDup (Live.id <$> prompt_trigger_questions s) →
  NoDup (Hist.id <$> prompt_trigger_questions_history s) →
  (∀ q, (get_question_by_id k s).1 = Some q
        ↔ q ∈ prompt_trigger_questions s ∧ Live.id q = k)
  ∧ ((get_question_by_id k s).1 = None
     ↔ k ∉ Live.id <$> prompt_trigger_questions s)
  ∧ (get_question_by_id k s).2 = s
  ∧ (∀ h, (get_history_entry k s).1 = Some h
          ↔ h ∈ prompt_trigger_questions_history s ∧ Hist.id h = k)
  ∧ ((get_history_entry k s).1 = None
     ↔ k ∉ Hist.id <$> prompt_trigger_questions_history s)
  ∧ (get_history_entry k s).2 = s.
Proof.
  intros Hq Hh. split; [intros q; by apply get_question_by_id_unique|].
  split; [apply get_question_by_id_None|]. split; [done|].
  split; [|split; [apply get_history_entry_None | done]].
  intros h. split; [apply get_history_entry_Some|]. intros [Hin Hid].
  destruct (get_history_entry k s).1 as [h'|] eqn:Hhead.
  - apply get_history_entry_Some in Hhead as [Hin' Hid'].
    f_equal. eapply NoDup_fmap_elem_eq; eauto. congruence.
  - apply get_history_entry_None in Hhead. destruct Hhead.
    apply list_elem_of_fmap. eauto.
Qed.

Lemma lookup_after_insert (rows : list Question) (q : Question) (k : Z) :
  k ≠ Live.id q →
  head (filter (λ r, bool_decide (Live.id r = k) = true) (rows ++ [q]))
  = head (filter (λ r, bool_decide (Live.id r = k) = true) rows).
Proof.
  intros Hk. rewrite filter_app, filter_cons, decide_False, filter_nil.
  - by rewrite app_nil_r.
  - intros Hid%bool_decide_eq_true. congruence.
Qed.

(** X2.  In a well-formed store, [create_question] returns a question
    with a key no row had, version 1, active, the given content, and the
    creator as last updater; a lookup by that key finds it afterwards,
    lookups by other keys answer as before, and the history table is
    untouched, so the new question has no history. *)
Theorem create_question_correct s question_text group_name source_shorthand
    created_by :
  wf_store s →
  ∃ q s',
    create_question utcnow_at question_text group_name source_shorthand
      created_by s = (q, s')
    ∧ q = {| Live.id := next_question_id s;
             Live.question_text := question_text;
             Live.group_name := group_name;
             Live.source_shorthand := source_shorthand;
             Live.version := 1;
             Live.is_active := true;
             Live.created_at := utcnow_at (clock s);
             Live.created_by := created_by;
             Live.updated_at := utcnow_at (S (clock s));
             Live.updated_by := created_by |}
    ∧ (Live.id q ∉ Live.id <$> prompt_trigger_questions s)
    ∧ (get_question_by_id (Live.id q) s').1 = Some q
    ∧ (∀ k, k ≠ Live.id q →
         (get_question_by_id k s').1 = (get_question_by_id k s).1)
    ∧ prompt_trigger_questions s' = prompt_trigger_questions s ++ [q]
    ∧ prompt_trigger_questions_history s' = prompt_trigger_questions_history s
    ∧ history_of (Live.id q) s' = [].
Proof.
  intros Hwf.
  destruct (create_question utcnow_at question_text group_name source_shorthand
              created_by s) as [q s'] eqn:Hcreate.
  destruct (create_question_fresh _ _ _ _ _ _ _ _ Hwf Hcreate)
    as (Hlookup & _ & Hhist).
  rewrite create_question_inserts in Hcreate. injection Hcreate as <- <-.
  eexists _, _. split; [reflexivity|]. split; [reflexivity|].
  split; [|split; [exact Hlookup|split; [|by repeat split]]].
  - intros (r & Hid & Hr)%list_elem_of_fmap.
    destruct Hwf as [_ _ Hids _ _]. rewrite Forall_forall in Hids.
    specialize (Hids r Hr). simpl in Hid. lia.
  - intros k Hk. by apply lookup_after_insert.
Qed.

Lemma lookup_after_delete (rows : list Question) (gone k : Z) :
  head (filter (λ r, bool_decide (Live.id r = k) = true)
               (filter (λ r, Live.id r ≠ gone) rows))
  = if bool_decide (k = gone) then None
    else head (filter (λ r, bool_decide (Live.id r = k) = true) rows).
Proof.
  rewrite list_filter_filter. case_bool_decide as Hk.
  - apply first_filter_None, Forall_forall.
    intros r _ [Hid%bool_decide_eq_true Hne]. congruence.
  - f_equal. apply list_filter_iff. intros r. rewrite bool_decide_eq_true.
    split; [tauto|]. intros Hid. split; [done | congruence].
Qed.

Lemma history_after_delete (rows : list HistoryEntry) (gone k : Z) :
  filter (λ h, Hist.question_id h = k)
         (filter (λ h, Hist.question_id h ≠ gone) rows)
  = if bool_decide (k = gone) then []
    else filter (λ h, Hist.question_id h = k) rows.
Proof.
  rewrite list_filter_filter. case_bool_decide as Hk.
  - apply filter_drop_all, Forall_forall. intros h _ [Hid Hne]. congruence.
  - apply list_filter_iff. intros h. split; [tauto|].
    intros Hid. split; [done | congruence].
Qed.

(** X3.  [delete_question] on a key no row has returns [False] and leaves
    the store as it was.  On the key of a row it returns [True]; afterwards
    a lookup by that key finds nothing and the question has no history
    rows left, while every other question and its history rows are as
    before. *)
Theorem delete_question_correct s question_id :
  (question_id ∉ Live.id <$> prompt_trigger_questions s →
     delete_question question_id s = (false, s))
  ∧ (question_id ∈ Live.id <$> prompt_trigger_questions s →
     (delete_question question_id s).1 = true
     ∧ (get_question_by_id question_id (delete_question question_id s).2).1
       = None
     ∧ history_of question_id (delete_question question_id s).2 = []
     ∧ ∀ k, k ≠ question_id →
         (get_question_by_id k (delete_question question_id s).2).1
         = (get_question_by_id k s).1
         ∧ history_of k (delete_question question_id s).2 = history_of k s).
Proof.
  split.
  - intros Hmissing%get_question_by_id_None. by apply delete_question_missing.
  - intros Hfound.
    destruct (get_question_by_id question_id s).1 as [question|] eqn:Hq;
      [|by apply get_question_by_id_None in Hq].
    rewrite (delete_question_found _ _ _ Hq).
    apply get_question_by_id_Some in Hq as [_ Hid].
    split; [done|]. split; [|split].
    + unfold get_question_by_id, bind, select_questions, ret. simpl.
      rewrite lookup_after_delete, Hid. by rewrite bool_decide_eq_true_2.
    + unfold history_of. simpl. rewrite history_after_delete, Hid.
      by rewrite bool_decide_eq_true_2.
    + intros k Hk. split.
      * unfold get_question_by_id, bind, select_questions, ret. simpl.
        rewrite lookup_after_delete, Hid. by rewrite bool_decide_eq_false_2.
      * unfold history_of. simpl. rewrite history_after_delete, Hid.
        by rewrite bool_decide_eq_false_2.
Qed.


(** X5.  [toggle_active_status] to the other status is a tracked mutation:
    one history row snapshots the question as it was, with the given
    reason or, when that is absent or empty, ["Activated question"] /
    ["Deactivated question"]; the live row gets the new status, its
    version plus one and a new update stamp, keeps its content, and is
    returned; other questions are untouched.  On a key no row has the
    method returns [None] and changes nothing. *)
Theorem toggle_active_status_changes s question_id is_active updated_by reason :
  (∀ question,
     (get_question_by_id question_id s).1 = Some question →
     Live.is_active question ≠ is_active →
     ∃ entry toggled s',
       toggle_active_status utcnow_at question_id is_active updated_by reason s
       = (Some toggled, s')
       ∧ prompt_trigger_questions_history s'
         = prompt_trigger_questions_history s ++ [entry]
       ∧ entry = {| Hist.id := next_history_id s;
                    Hist.question_id := question_id;
                    Hist.question_text := Live.question_text question;
                    Hist.group_name := Live.group_name question;
                    Hist.source_shorthand := Live.source_shorthand question;
                    Hist.version := Live.version question;
                    Hist.created_at := Live.created_at question;
                    Hist.created_by := Live.created_by question;
                    Hist.replaced_at := utcnow_at (clock s);
                    Hist.replaced_by := Some updated_by;
                    Hist.reason :=
                      match reason with
                      | Some given =>
                          if bool_decide (given = ""%string)
                          then Some (if is_active then "Activated question"
                                     else "Deactivated question")%string
                          else Some given
                      | None => Some (if is_active then "Activated question"
                                      else "Deactivated question")%string
                      end |}
       ∧ toggled = {| Live.id := question_id;
                      Live.question_text := Live.question_text question;
                      Live.group_name := Live.group_name question;
                      Live.source_shorthand := Live.source_shorthand question;
                      Live.version := Live.version question + 1;
                      Live.is_active := is_active;
                      Live.created_at := Live.created_at question;
                      Live.created_by := Live.created_by question;
                      Live.updated_at := utcnow_at (S (clock s));
                      Live.updated_by := Some updated_by |}
       ∧ get_question_by_id question_id s' = (Some toggled, s')
       ∧ (∀ k, k ≠ question_id →
            (get_question_by_id k s').1 = (get_question_by_id k s).1))
  ∧ (question_id ∉ Live.id <$> prompt_trigger_questions s →
     toggle_active_status utcnow_at question_id is_active updated_by reason s
     = (None, s)).
Proof.
  split.
  - intros question Hq Hne.
    destruct (get_question_by_id_Some _ _ _ Hq) as [_ Hid].
    eexists _, _, _.
    split; [by apply toggle_active_status_changed|].
    split; [done|]. split.
    { unfold snapshot, py_or, truthy. rewrite Hid. f_equal.
      destruct reason as [given|]; [|by destruct is_active].
      case_bool_decide; simpl; [by destruct is_active | done]. }
    split; [by rewrite <- Hid|]. split.
    + by apply tracked_commit_lookup_rewritten.
    + intros k Hk. apply tracked_commit_lookup_ne.
      change (k ≠ Live.id question). congruence.
  - intros Hmissing%get_question_by_id_None.
    unfold toggle_active_status, bind at 1.
    by rewrite (get_question_by_id_pair question_id s), Hmissing.
Qed.

Lemma tracked_commit_history s entry updated :
  prompt_trigger_questions_history (tracked_commit s entry updated)
  = prompt_trigger_questions_history s ++ [entry].
Proof. reflexivity. Qed.

(** X7.  An edit can be undone: in a well-formed store, after
    [update_question_with_history] on an existing question, restoring it
    from the snapshot the edit has just written (whose key is the value of
    the history counter before the edit) brings back the three content
    fields as they were before the edit.  The version is not brought
    back: it is two higher, and the history has grown by two rows, the
    second holding the edited content. *)
Theorem restore_undoes_update s question_id updated_by question_text group_name
    source_shorthand reason restored_by restore_reason question :
  wf_store s →
  (get_question_by_id question_id s).1 = Some question →
  ∃ restored s2 before edited,
    restore_question_version utcnow_at question_id (next_history_id s)
      restored_by restore_reason
      (update_question_with_history utcnow_at question_id updated_by
         question_text group_name source_shorthand reason s).2
    = (Some restored, s2)
    ∧ Live.question_text restored = Live.question_text question
    ∧ Live.group_name restored = Live.group_name question
    ∧ Live.source_shorthand restored = Live.source_shorthand question
    ∧ Live.is_active restored = Live.is_active question
    ∧ Live.version restored = Live.version question + 2
    ∧ prompt_trigger_questions_history s2
      = prompt_trigger_questions_history s ++ [before; edited]
    ∧ Hist.version before = Live.version question
    ∧ Hist.question_text before = Live.question_text question
    ∧ Hist.version edited = Live.version question + 1
    ∧ Hist.question_text edited
      = default (Live.question_text question) question_text.
Proof.
  intros Hwf Hq.
  rewrite (update_question_with_history_found _ _ _ _ _ _ _ _ _ Hq). cbn [snd].
  destruct (get_question_by_id_Some _ _ _ Hq) as [_ Hid].
  set (entry := snapshot question (utcnow_at (clock s)) updated_by reason
                  (next_history_id s)).
  set (updated := rewritten question question_text group_name source_shorthand
                    (Live.is_active question) (utcnow_at (S (clock s)))
                    updated_by).
  assert ((get_history_entry (next_history_id s)
             (tracked_commit s entry updated)).1 = Some entry) as Hentry.
  { unfold get_history_entry, bind, select_history, ret. simpl.
    rewrite filter_app, filter_drop_all.
    - rewrite app_nil_l, filter_cons, decide_True; [done|].
      by apply bool_decide_eq_true.
    - destruct Hwf as [_ _ _ Hids _]. rewrite Forall_forall in Hids.
      apply Forall_forall. intros h Hh Heq%bool_decide_eq_true.
      specialize (Hids h Hh). lia. }
  rewrite (restore_question_version_delegates _ _ _ _ _ _ _ Hentry Hid).
  pose proof (tracked_commit_lookup_rewritten s question_id entry question
                question_text group_name source_shorthand
                (Live.is_active question) (utcnow_at (S (clock s))) updated_by
                Hq) as Hlookup.
  fold updated in Hlookup. apply (f_equal fst) in Hlookup. cbn [fst] in Hlookup.
  rewrite (update_question_with_history_found _ _ _ _ _ _ _ _ _ Hlookup).
  eexists _, _, _, _. split; [reflexivity|].
  repeat (split; [reflexivity|]). split.
  - simpl. lia.
  - rewrite !tracked_commit_history, <- app_assoc.
    split; [reflexivity | by repeat split].
Qed.

End crud.

(** ** More on the group-level bulk operations *)

Lemma filter_length_Forall2 {A : Type} (R : A → A → Prop) (P P' : A → Prop)
    `{!∀ x, Decision (P x)} `{!∀ x, Decision (P' x)} (l l' : list A) :
  Forall2 R l l' → (∀ x y, R x y → P x ↔ P' y) →
  length (filter P l) = length (filter P' l').
Proof.
  intros HR Hiff. induction HR as [|x y l l' Hxy HR IH]; [done|].
  rewrite !filter_cons. destruct (decide (P x)) as [HP|HP].
  - rewrite decide_True by by apply (Hiff x y). simpl. by rewrite IH.
  - rewrite decide_False; [done|]. intros HP'. by apply HP, (Hiff x y).
Qed.

(** When the objects a writing loop is given are the rows that satisfy
    [P], in a table with unique keys, the loop rewrites exactly those. *)
Lemma written_selected (write : nat → Question → Question) (ticks : nat)
    (P : Question → Prop) (selected rows rows' : list Question) (t0 : nat) :
  NoDup (Live.id <$> rows) →
  (∀ q, q ∈ selected ↔ q ∈ rows ∧ P q) →
  Forall2 (written write ticks selected t0) rows rows' →
  Forall2 (λ r r', (P r ∧ ∃ t, r' = write t r) ∨ (¬ P r ∧ r' = r)) rows rows'.
Proof.
  intros Hnd Hsel Hw. apply Forall2_elem_of_l in Hw.
  eapply Forall2_impl; [exact Hw|]. clear Hw.
  intros r r' [Hr [[Hfresh ->]|(q & i & Hq & Hid & _ & ->)]].
  - right. split; [|done]. intros HP. apply Hfresh, list_elem_of_fmap.
    exists r. split; [done|]. by apply Hsel.
  - apply Hsel in Hq as [Hq HP].
    assert (q = r) as -> by by eapply NoDup_fmap_elem_eq.
    left. eauto.
Qed.

Section bulk.
Variable utcnow_at : nat → datetime.
Variable collate : string → string → comparison.

Lemma get_all_questions_group s group_name q :
  group_name ≠ ""%string →
  q ∈ (get_all_questions collate None (Some group_name) true s).1
  ↔ q ∈ prompt_trigger_questions s ∧ Live.group_name q = group_name.
Proof.
  intros Hne.
  destruct (get_all_questions_selects collate None (Some group_name) true s)
    as [-> _].
  rewrite list_elem_of_filter, question_filter_group by done. tauto.
Qed.

Lemma get_all_questions_group_count s group_name :
  group_name ≠ ""%string →
  count_rows (get_all_questions collate None (Some group_name) true s).1
  = count_rows (filter (λ q, Live.group_name q = group_name)
                       (prompt_trigger_questions s)).
Proof.
  intros Hne. unfold count_rows.
  destruct (get_all_questions_selects collate None (Some group_name) true s)
    as [-> _].
  do 2 f_equal. apply list_filter_iff. intros q. by apply question_filter_group.
Qed.

(** The rows [rename_group] leaves, row by row. *)
Lemma rename_group_rows s old_name new_name updated_by :
  old_name ≠ ""%string →
  NoDup (Live.id <$> prompt_trigger_questions s) →
  Forall2 (λ r r', (Live.group_name r = old_name
                    ∧ ∃ t, r' = renamed utcnow_at new_name updated_by t r)
                   ∨ (Live.group_name r ≠ old_name ∧ r' = r))
    (prompt_trigger_questions s)
    (prompt_trigger_questions
       (rename_group utcnow_at collate old_name new_name updated_by s).2).
Proof.
  intros Hne Hnd.
  destruct (rename_group_writes utcnow_at collate old_name new_name updated_by s)
    as (Hrows & _).
  eapply (written_selected _ _ (λ q, Live.group_name q = old_name));
    [done | | exact Hrows].
  intros q. by apply get_all_questions_group.
Qed.

(** X12.  After [rename_group] with a non-empty old name different from
    the new one, in a table with unique keys, the old group is empty:
    listing it returns nothing and renaming it again affects 0 questions;
    the new group holds what the two groups held together, and the table
    has as many rows as before. *)
Theorem rename_group_moves s old_name new_name updated_by :
  old_name ≠ ""%string →
  old_name ≠ new_name →
  NoDup (Live.id <$> prompt_trigger_questions s) →
  (get_all_questions collate None (Some old_name) true
     (rename_group utcnow_at collate old_name new_name updated_by s).2).1 = []
  ∧ (rename_group utcnow_at collate old_name new_name updated_by
       (rename_group utcnow_at collate old_name new_name updated_by s).2).1 = 0
  ∧ count_rows
      (filter (λ q, Live.group_name q = new_name)
         (prompt_trigger_questions
            (rename_group utcnow_at collate old_name new_name updated_by s).2))
    = count_rows (filter (λ q, Live.group_name q = old_name)
                         (prompt_trigger_questions s))
      + count_rows (filter (λ q, Live.group_name q = new_name)
                           (prompt_trigger_questions s))
  ∧ length (prompt_trigger_questions
              (rename_group utcnow_at collate old_name new_name updated_by s).2)
    = length (prompt_trigger_questions s).
Proof.
  intros Hne Hdiff Hnd.
  pose proof (rename_group_rows s old_name new_name updated_by Hne Hnd) as Hrows.
  assert ((get_all_questions collate None (Some old_name) true
             (rename_group utcnow_at collate old_name new_name updated_by s).2).1
          = []) as Hempty.
  { apply Permutation_nil_r.
    destruct (get_all_questions_selects collate None (Some old_name) true
                (rename_group utcnow_at collate old_name new_name updated_by s).2)
      as [-> _].
    rewrite filter_drop_all; [done|].
    eapply Forall2_Forall_r; [exact Hrows|]. apply Forall_forall.
    intros r _ r' [[_ [t ->]]|[Hr ->]]; rewrite question_filter_group by done.
    - simpl. congruence.
    - done. }
  split; [exact Hempty|]. split; [|split].
  - rewrite rename_group_loop. cbn [fst]. by rewrite Hempty.
  - unfold count_rows. rewrite <- Nat2Z.inj_add. f_equal.
    rewrite <- filter_length_or by (intros q; congruence).
    symmetry. eapply filter_length_Forall2; [exact Hrows|].
    intros r r' [[Hr [t ->]]|[Hr ->]]; simpl.
    + split; [done | by left].
    + split; [intros [?|?]; done | by right].
  - symmetry. by eapply Forall2_length.
Qed.

(** X11.  [delete_group] with a non-empty group name, in a table with
    unique keys, returns the number of rows of the group.  With
    [delete_questions] it removes exactly the rows of the group and the
    history rows of those questions.  Without it every row of the group
    is moved to group ["Ungrouped"] and keeps its key, content, version,
    status and creation stamp; rows of other groups and the history table
    are as before. *)
Theorem delete_group_correct s group_name :
  group_name ≠ ""%string →
  NoDup (Live.id <$> prompt_trigger_questions s) →
  (delete_group collate group_name true s).1
  = count_rows (filter (λ q, Live.group_name q = group_name)
                       (prompt_trigger_questions s))
  ∧ prompt_trigger_questions (delete_group collate group_name true s).2
    = filter (λ q, Live.group_name q ≠ group_name) (prompt_trigger_questions s)
  ∧ prompt_trigger_questions_history (delete_group collate group_name true s).2
    = filter (λ h, Hist.question_id h
                   ∉ Live.id <$> filter (λ q, Live.group_name q = group_name)
                                        (prompt_trigger_questions s))
             (prompt_trigger_questions_history s)
  ∧ (delete_group collate group_name false s).1
    = count_rows (filter (λ q, Live.group_name q = group_name)
                         (prompt_trigger_questions s))
  ∧ Forall2
      (λ q q',
         if bool_decide (Live.group_name q = group_name)
         then Live.group_name q' = "Ungrouped"%string
              ∧ Live.id q' = Live.id q
              ∧ Live.question_text q' = Live.question_text q
              ∧ Live.source_shorthand q' = Live.source_shorthand q
              ∧ Live.version q' = Live.version q
              ∧ Live.is_active q' = Live.is_active q
              ∧ Live.created_at q' = Live.created_at q
              ∧ Live.created_by q' = Live.created_by q
         else q' = q)
      (prompt_trigger_questions s)
      (prompt_trigger_questions (delete_group collate group_name false s).2)
  ∧ prompt_trigger_questions_history (delete_group collate group_name false s).2
    = prompt_trigger_questions_history s.
Proof.
  intros Hne Hnd. rewrite !delete_group_loop. cbn [fst snd].
  pose proof (get_all_questions_group s group_name) as Hsel.
  destruct (get_all_questions_selects collate None (Some group_name) true s)
    as [Hperm _].
  destruct (for_each_delete_row
              (get_all_questions collate None (Some group_name) true s).1 s)
    as (Hrows & Hhist & _).
  split; [by apply get_all_questions_group_count|].
  split; [|split; [|split; [by apply get_all_questions_group_count|]]].
  - rewrite Hrows. apply filter_ext_in. intros r Hr. split.
    + intros Hfresh Hgroup. apply Hfresh, list_elem_of_fmap.
      exists r. split; [done|]. by apply Hsel.
    + intros Hgroup (q & Hid & Hq)%list_elem_of_fmap.
      apply Hsel in Hq as [Hq Hqg]; [|done].
      assert (q = r) as -> by by eapply NoDup_fmap_elem_eq.
      by apply Hgroup.
  - rewrite Hhist. apply list_filter_iff. intros h.
    assert (∀ k, k ∈ Live.id <$>
                   (get_all_questions collate None (Some group_name) true s).1
                 ↔ k ∈ Live.id <$> filter (λ q, Live.group_name q = group_name)
                                          (prompt_trigger_questions s)) as Hids.
    { intros k. rewrite !list_elem_of_fmap. split; intros (q & -> & Hq);
        exists q; (split; [done|]).
      - apply Hsel in Hq; [|done]. apply list_elem_of_filter. tauto.
      - apply Hsel; [done|]. apply list_elem_of_filter in Hq. tauto. }
    by rewrite Hids.
  - match goal with |- context [for_each ?sel ?body s] =>
      destruct (for_each_writes (λ _, set_group_name "Ungrouped") 0 body
                  (λ _ _, eq_refl) (λ _ _, eq_refl) sel s)
        as (Hwritten & Hsame & _) end.
    split; [|exact Hsame].
    eapply (written_selected _ _ (λ q, Live.group_name q = group_name))
      in Hwritten; [|done|by intros q; apply Hsel].
    eapply Forall2_impl; [exact Hwritten|].
    intros r r' [[Hr [t ->]]|[Hr ->]].
    + by rewrite (bool_decide_eq_true_2 _ Hr).
    + by rewrite (bool_decide_eq_false_2 _ Hr).
Qed.

End bulk.

(** ** What no sequence of calls can do *)




Section calls_invariants.
Variable utcnow_at : nat → datetime.
Variable collate : string → string → comparison.

Lemma toggle_active_status_missing s question_id is_active updated_by reason :
  (get_question_by_id question_id s).1 = None →
  toggle_active_status utcnow_at question_id is_active updated_by reason s
  = (None, s).
Proof.
  intros Hq. unfold toggle_active_status, bind at 1.
  by rewrite (get_question_by_id_pair question_id s), Hq.
Qed.

Lemma restore_question_version_rejected s question_id history_id restored_by
    reason :
  (get_history_entry history_id s).1 = None
  ∨ (∃ h, (get_history_entry history_id s).1 = Some h
          ∧ Hist.question_id h ≠ question_id) →
  restore_question_version utcnow_at question_id history_id restored_by reason s
  = (None, s).
Proof.
  intros [Hh|(h & Hh & Hid)]; unfold restore_question_version, bind at 1;
    rewrite (get_history_entry_pair history_id s), Hh; [done|].
  by rewrite (bool_decide_eq_true_2 _ Hid).
Qed.

(** An edit, a toggle or a restore either leaves the store as it was or
    commits one snapshot of a row of the table and that row rewritten. *)
Lemma tracked_call_outcome c s :
  is_tracked_call c = true →
  run_call utcnow_at collate c s = s
  ∨ ∃ q question_text group_name source_shorthand is_active replaced_at
      updated_at updated_by reason,
      q ∈ prompt_trigger_questions s
      ∧ run_call utcnow_at collate c s
        = tracked_commit s
            (snapshot q replaced_at updated_by reason (next_history_id s))
            (rewritten q question_text group_name source_shorthand is_active
               updated_at updated_by).
Proof.
  destruct c as [| |k by_ qt gn ss reason|k act by_ reason|k hid by_ reason| |];
    try done; intros _; unfold run_call.
  - destruct (get_question_by_id k s).1 as [q|] eqn:Hq.
    + right. rewrite (update_question_with_history_found _ _ _ _ _ _ _ _ _ Hq).
      apply get_question_by_id_Some in Hq as [Hq _].
      eexists q, _, _, _, _, _, _, _, _. split; [done | reflexivity].
    + left. by rewrite (update_question_with_history_missing _ _ _ _ _ _ _ _ Hq).
  - destruct (get_question_by_id k s).1 as [q|] eqn:Hq.
    + destruct (decide (Live.is_active q = act)) as [Heq|Hne].
      * left. by rewrite (toggle_active_status_same_status _ _ _ _ _ _ _ Hq Heq).
      * right. rewrite (toggle_active_status_changed _ _ _ _ _ _ _ Hq Hne).
        apply get_question_by_id_Some in Hq as [Hq _].
        eexists q, _, _, _, _, _, _, _, _. split; [done | reflexivity].
    + left. by rewrite (toggle_active_status_missing _ _ _ _ _ Hq).
  - destruct (get_history_entry hid s).1 as [h|] eqn:Hh.
    + destruct (decide (Hist.question_id h = k)) as [Hid|Hid].
      * rewrite (restore_question_version_delegates _ _ _ _ _ _ _ Hh Hid).
        destruct (get_question_by_id k s).1 as [q|] eqn:Hq.
        -- right.
           rewrite (update_question_with_history_found _ _ _ _ _ _ _ _ _ Hq).
           apply get_question_by_id_Some in Hq as [Hq _].
           eexists q, _, _, _, _, _, _, _, _. split; [done | reflexivity].
        -- left.
           by rewrite (update_question_with_history_missing _ _ _ _ _ _ _ _ Hq).
      * left. rewrite restore_question_version_rejected; [done|]. right. eauto.
    + left. rewrite restore_question_version_rejected; [done|]. by left.
Qed.

Lemma wf_store_run_call c s :
  wf_store s → wf_store (run_call utcnow_at collate c s).
Proof.
  intros Hwf. destruct c; simpl.
  - by apply wf_store_create_question.
  - by apply wf_store_delete_question.
  - by apply wf_store_update_question_with_history.
  - by apply wf_store_toggle_active_status.
  - by apply wf_store_restore_question_version.
  - by apply wf_store_rename_group.
  - by apply wf_store_delete_group.
Qed.

Lemma wf_store_run_calls calls s :
  wf_store s → wf_store (run_calls utcnow_at collate calls s).
Proof.
  revert s. induction calls as [|c calls IH]; intros s Hwf; [done|].
  simpl. by apply IH, wf_store_run_call.
Qed.

(** X13.  Whatever sequence of writing methods is called, starting from the
    empty store or from any store satisfying the schema's constraints, the
    store satisfies them afterwards: primary keys are unique and below the
    auto-increment counters, and every history row belongs to a question
    of the table. *)
Theorem schema_constraints_always_hold (calls : list call) :
  wf_store (run_calls utcnow_at collate calls empty_session)
  ∧ referential_integrity (run_calls utcnow_at collate calls empty_session)
  ∧ ∀ s, wf_store s → wf_store (run_calls utcnow_at collate calls s).
Proof.
  assert (wf_store (run_calls utcnow_at collate calls empty_session)) as Hwf
    by apply wf_store_run_calls, wf_store_empty.
  split; [exact Hwf|]. split; [by destruct Hwf|].
  intros s. apply wf_store_run_calls.
Qed.

Lemma history_kept (c : call) (s : Session) :
  deletes c = false →
  prompt_trigger_questions_history s
    `prefix_of` prompt_trigger_questions_history (run_call utcnow_at collate c s).
Proof.
  intros Hkeeps. destruct (is_tracked_call c) eqn:Htracked.
  { destruct (tracked_call_outcome c s Htracked)
      as [->|(q & qt & gn & ss & act & t & t' & by_ & reason & _ & ->)];
      [done|].
    by apply prefix_app_r. }
  destruct c as [qt gn ss by_|k| | | |old new by_|g del]; try done; simpl.
  - destruct (rename_group_writes utcnow_at collate old new by_ s)
      as (_ & -> & _). done.
  - destruct del; [done|]. rewrite delete_group_loop. cbn [snd].
    match goal with |- context [for_each ?sel ?body s] =>
      destruct (for_each_writes (λ _, set_group_name "Ungrouped") 0 body
                  (λ _ _, eq_refl) (λ _ _, eq_refl) sel s)
        as (_ & -> & _) end.
    done.
Qed.

Lemma history_only_removed (c : call) (s : Session) :
  deletes c = true →
  prompt_trigger_questions_history (run_call utcnow_at collate c s)
    `sublist_of` prompt_trigger_questions_history s.
Proof.
  destruct c as [|k| | | | |g del]; try done; simpl.
  - intros _. destruct (get_question_by_id k s).1 as [q|] eqn:Hq.
    + rewrite (delete_question_found _ _ _ Hq). apply sublist_filter.
    + by rewrite (delete_question_missing _ _ Hq).
  - destruct del; [|done]. intros _. rewrite delete_group_loop. cbn [snd].
    match goal with |- context [for_each ?sel delete_row s] =>
      destruct (for_each_delete_row sel s) as (_ & -> & _) end.
    apply sublist_filter.
Qed.

(** X14.  The history table is append-only: a call that does not delete
    questions leaves every history row in place and at most adds rows at
    the end, and a deleting call only removes rows.  No call changes a
    history row. *)
Theorem history_append_only (c : call) (s : Session) :
  (deletes c = false →
     prompt_trigger_questions_history s
       `prefix_of` prompt_trigger_questions_history
                     (run_call utcnow_at collate c s))
  ∧ (deletes c = true →
     prompt_trigger_questions_history (run_call utcnow_at collate c s)
       `sublist_of` prompt_trigger_questions_history s).
Proof. split; [apply history_kept | apply history_only_removed]. Qed.






End calls_invariants.

(** ** Request validators *)

Section validators.
Variable isspace : Ascii.ascii → bool.

Lemma is_empty_true (s : string) : is_empty s = true ↔ s = ""%string.
Proof. apply bool_decide_eq_true. Qed.


















End validators.

(** ** Worked examples *)

Lemma wf_store_example_edited : wf_store example_edited.
Proof.
  apply wf_store_update_question_with_history, wf_store_create_question,
    wf_store_empty.
Qed.

Lemma wf_store_example_groups : wf_store example_groups.
Proof.
  apply wf_store_toggle_active_status.
  do 3 apply wf_store_create_question. apply wf_store_example_edited.
Qed.

Lemma update_question_with_history_correct_witness :
  ∃ entry updated s',
    update_question_with_history example_clock 1 "bob"
      (Some "Q2"%string) None None (Some "typo"%string) example_created
    = (Some updated, s')
    ∧ prompt_trigger_questions_history s' = [entry]
    ∧ Hist.question_text entry = "Q1"%string
    ∧ Hist.version entry = 1
    ∧ Hist.reason entry = Some "typo"%string
    ∧ Live.question_text updated = "Q2"%string
    ∧ Live.group_name updated = "G"%string
    ∧ Live.version updated = 2.
Proof.
  destruct (update_question_with_history_correct example_clock example_created
              1 "bob" (Some "Q2"%string) None None (Some "typo"%string))
    as [Hfound _].
  destruct (Hfound example_q1_created eq_refl)
    as (entry & updated & s' & Hrun & Hhist & Hentry & Hupdated & _).
  exists entry, updated, s'. split; [exact Hrun|]. split; [exact Hhist|].
  rewrite Hentry, Hupdated. repeat split.
Defined.

Lemma tracked_mutations_version_history_witness :
  ∃ live,
    (get_question_by_id 1
       (apply_mutations example_clock 1 example_mutations example_created).2).1
    = Some live
    ∧ Live.version live = 4
    ∧ Hist.version
        <$> history_of 1
              (apply_mutations example_clock 1 example_mutations example_created).2
      = [1; 2; 3].
Proof.
  destruct (tracked_mutations_version_history example_clock empty_session
              "Q1" "G" "A" (Some "alice"%string) example_q1_created
              example_created example_mutations wf_store_empty eq_refl)
    as (_ & _ & live & Hlive & Hversion & _ & Hhistory & _).
  - vm_compute. repeat split.
  - exists live. split; [exact Hlive|]. split; [exact Hversion | exact Hhistory].
Defined.

Lemma restore_question_version_correct_witness :
  ∃ restored s',
    restore_question_version example_clock 1 1 "carol" None example_edited
    = (Some restored, s')
    ∧ Live.question_text restored = "Q1"%string
    ∧ Live.version restored = 3
    ∧ Hist.reason <$> prompt_trigger_questions_history s'
      = [None; Some "Restored to version 1"%string].
Proof.
  destruct (restore_question_version_correct example_clock example_edited
              1 1 "carol" None example_h1 example_q1_edited
              eq_refl eq_refl eq_refl)
    as (entry & restored & s' & Hrun & _ & Htext & _ & _ & Hversion & Hhist
        & _ & _ & _ & _ & _ & _ & _ & _ & Hreason & _).
  exists restored, s'. split; [exact Hrun|]. split; [exact Htext|].
  split; [exact Hversion|]. rewrite Hhist, fmap_app. simpl.
  by rewrite (Hreason eq_refl).
Defined.

Lemma restore_question_version_not_found_witness :
  (restore_question_version example_clock 3 1 "carol" None example_groups).1 = None
  ∧ (restore_question_version example_clock 3 1 "carol" None example_groups).2
    = example_groups
  ∧ (restore_question_version example_clock 1 7 "carol" None example_groups).1 = None.
Proof.
  destruct (restore_question_version_not_found example_clock example_groups
              3 1 "carol" None (wf_foreign_key _ wf_store_example_groups))
    as [Hiff Hsame].
  destruct (restore_question_version_not_found example_clock example_groups
              1 7 "carol" None (wf_foreign_key _ wf_store_example_groups))
    as [Hiff' _].
  assert ((restore_question_version example_clock 3 1 "carol" None
             example_groups).1 = None) as Hnone.
  { apply Hiff. right. exists example_h1. split; [reflexivity | discriminate]. }
  split; [exact Hnone|]. split; [exact (Hsame Hnone)|].
  apply Hiff'. left. reflexivity.
Defined.

Lemma toggle_active_status_same_status_witness :
  toggle_active_status example_clock 4 false "eve" (Some "again"%string)
    example_groups
  = (Some example_q4, example_groups).
Proof.
  exact (toggle_active_status_same_status example_clock example_groups
           4 false "eve" (Some "again"%string) example_q4 eq_refl eq_refl).
Defined.

Lemma update_question_with_history_no_changes_witness :
  ∃ entry updated s',
    update_question_with_history example_clock 1 "bob" None None None None
      example_edited = (Some updated, s')
    ∧ prompt_trigger_questions_history s'
      = prompt_trigger_questions_history example_edited ++ [entry]
    ∧ Hist.question_text entry = "Q2"%string
    ∧ Hist.version entry = 2
    ∧ Live.question_text updated = "Q2"%string
    ∧ Live.version updated = 3.
Proof.
  destruct (update_question_with_history_no_changes example_clock example_edited
              1 "bob" None example_q1_edited eq_refl)
    as (entry & updated & s' & Hrun & Hhist & _ & Htext & _ & _ & Hversion & _
        & Hv & _ & _ & Htext' & _).
  exists entry, updated, s'. split; [exact Hrun|]. split; [exact Hhist|].
  split; [exact Htext|]. split; [exact Hversion|].
  split; [exact Htext' | exact Hv].
Defined.

Lemma rename_group_correct_witness :
  ∃ s',
    rename_group example_clock String.compare "G" "H" "eve" example_groups
    = (3, s')
    ∧ Live.group_name <$> prompt_trigger_questions s'
      = ["H"; "H"; "X"; "H"]%string
    ∧ Live.version <$> prompt_trigger_questions s' = [2; 1; 1; 2]
    ∧ prompt_trigger_questions_history s'
      = prompt_trigger_questions_history example_groups.
Proof.
  destruct (rename_group_correct example_clock String.compare example_groups
              "G" "H" "eve")
    as (s' & Hrun & _ & Hhist).
  - discriminate.
  - exact (wf_question_pk _ wf_store_example_groups).
  - exists s'. split; [exact Hrun|].
    assert (s' = (rename_group example_clock String.compare "G" "H" "eve"
                    example_groups).2) as -> by by rewrite Hrun.
    split; [by vm_compute|]. split; [by vm_compute | exact Hhist].
Defined.

Lemma restore_question_version_returns_witness :
  ∃ question,
    (restore_question_version example_clock 1 1 "carol" (Some ""%string)
       example_groups).1 = Some question
    ∧ Live.question_text question = "Q1"%string
    ∧ Live.version question = 3.
Proof.
  destruct (restore_question_version_returns example_clock example_groups
              1 1 "carol" (Some ""%string) example_h1
              (wf_foreign_key _ wf_store_example_groups) eq_refl eq_refl)
    as (question & Hq & Hrun).
  eexists. split; [exact Hrun|]. injection Hq as <-. split; reflexivity.
Defined.

Lemma lookups_by_id_correct_witness :
  (get_question_by_id 4 example_groups).1 = Some example_q4
  ↔ example_q4 ∈ prompt_trigger_questions example_groups
    ∧ Live.id example_q4 = 4.
Proof.
  exact (proj1 (lookups_by_id_correct example_groups 4
                  (wf_question_pk _ wf_store_example_groups)
                  (wf_history_pk _ wf_store_example_groups))
               example_q4).
Defined.

Lemma create_question_correct_witness :
  ∃ q s',
    create_question example_clock "Q6" "Y" "K" None example_groups = (q, s')
    ∧ Live.id q = 5
    ∧ (get_question_by_id 5 s').1 = Some q
    ∧ history_of 5 s' = [].
Proof.
  destruct (create_question_correct example_clock example_groups
              "Q6" "Y" "K" None wf_store_example_groups)
    as (q & s' & Hrun & Hq & _ & Hlookup & _ & _ & _ & Hhistory).
  exists q, s'. rewrite Hq in Hlookup, Hhistory |- *.
  split; [by rewrite Hrun, Hq|]. split; [reflexivity|].
  split; [exact Hlookup | exact Hhistory].
Defined.


Lemma restore_undoes_update_witness :
  ∃ restored s2,
    restore_question_version example_clock 1 1 "carol" None
      (update_question_with_history example_clock 1 "bob"
         (Some "Q2"%string) (Some "H"%string) None None example_created).2
    = (Some restored, s2)
    ∧ Live.question_text restored = "Q1"%string
    ∧ Live.group_name restored = "G"%string
    ∧ Live.version restored = 3.
Proof.
  destruct (restore_undoes_update example_clock example_created 1 "bob"
              (Some "Q2"%string) (Some "H"%string) None None "carol" None
              example_q1_created
              (wf_store_create_question _ _ _ _ _ _ wf_store_empty) eq_refl)
    as (restored & s2 & _ & _ & Hrun & Htext & Hgroup & _ & _ & Hversion & _).
  exists restored, s2. split; [exact Hrun|]. split; [exact Htext|].
  split; [exact Hgroup | exact Hversion].
Defined.

Lemma get_all_questions_correct_witness :
  Sorted (order_by_group_name_id String.compare)
    (get_all_questions String.compare None (Some "G"%string) false
       example_groups).1
  ∧ (example_q1_edited
       ∈ (get_all_questions String.compare None (Some "G"%string) false
            example_groups).1)
  ∧ (example_q4
       ∉ (get_all_questions String.compare None (Some "G"%string) false
            example_groups).1).
Proof.
  destruct (get_all_questions_correct String.compare
              (λ a b, String.compare_antisym b a)
              example_groups None (Some "G"%string) false)
    as (Hmember & _ & Hsorted & _).
  split; [exact Hsorted|]. split.
  - apply Hmember. split; [|split; [reflexivity|split; [discriminate|]]].
    + vm_compute. apply list_elem_of_here.
    + intros group [= <-] _. reflexivity.
  - intros Hin. apply Hmember in Hin as (_ & Hactive & _).
    specialize (Hactive eq_refl). discriminate Hactive.
Defined.

Lemma get_all_groups_correct_witness :
  NoDup (get_all_groups String.compare None true example_groups).1.*1
  ∧ sum_counts (get_all_groups String.compare None true example_groups).1 = 4
  ∧ (("G"%string, 3)
       ∈ (get_all_groups String.compare None true example_groups).1).
Proof.
  destruct (get_all_groups_correct String.compare
              (λ a b, String.compare_antisym b a) example_groups None true)
    as (Hnames & Hrows & Hsum & _).
  split; [exact Hnames|]. split; [exact Hsum|].
  apply Hrows. split; [lia | reflexivity].
Defined.

Lemma delete_group_correct_witness :
  (delete_group String.compare "G" true example_groups).1 = 3
  ∧ Live.id <$> prompt_trigger_questions
                  (delete_group String.compare "G" true example_groups).2 = [3]
  ∧ prompt_trigger_questions_history
      (delete_group String.compare "G" true example_groups).2 = []
  ∧ (delete_group String.compare "G" false example_groups).1 = 3.
Proof.
  destruct (delete_group_correct String.compare example_groups "G")
    as (Hcount & Hrows & Hhistory & Hcount' & _).
  - discriminate.
  - exact (wf_question_pk _ wf_store_example_groups).
  - split; [exact Hcount|]. split; [by rewrite Hrows|].
    split; [by rewrite Hhistory | exact Hcount'].
Defined.

Lemma rename_group_moves_witness :
  (get_all_questions String.compare None (Some "G"%string) true
     (rename_group example_clock String.compare "G" "X" "eve" example_groups).2).1
  = []
  ∧ count_rows
      (filter (λ q, Live.group_name q = "X"%string)
         (prompt_trigger_questions
            (rename_group example_clock String.compare "G" "X" "eve"
               example_groups).2))
    = 4.
Proof.
  destruct (rename_group_moves example_clock String.compare example_groups
              "G" "X" "eve")
    as (Hempty & _ & Hcount & _).
  - discriminate.
  - discriminate.
  - exact (wf_question_pk _ wf_store_example_groups).
  - split; [exact Hempty | exact Hcount].
Defined.

